(** * Valuation engine of the trade/reference-price API server

    Shallow embedding of the three HTTP handlers of the API server
    ([getTradesCountHandler], [getAssetsHandler], [getAssetsByYearHandler])
    together with the SQL statements they send to the ledger store, of the
    start-up loop of [main] and of the CSV importers.

    Conventions of the embedding:
    - the two tables are lists of rows; their PRIMARY KEY constraints are
      stated as predicates ([trade_histories_pk], [reference_prices_pk])
      and assumed only where a statement needs them;
    - Go [int] and MySQL [INT] values are [Z] (the columns are 32-bit, the
      Go variables 64-bit: the integer sums of the handlers stay in range);
    - MySQL [DECIMAL(10,2)] values are exact rationals [Q];
    - Go [float64] and MySQL [DOUBLE] values live in a number system
      [Float64] that the handlers are written over. The code runs on
      [binary64]: IEEE 754 double precision with round-to-nearest-even, as
      specified by [SpecFloat]. The instance [rational] of rational numbers is
      the arithmetic without rounding; it is used to state what a valuation
      would be if no operation rounded;
    - a Go [map] is a [gmap]; the order in which [range] visits it is given
      by an oracle, constrained only to enumerate the entries once each;
    - [user_id = ?] is equality of strings (the collation of the column is
      not part of the embedding);
    - a [SUM] of the store adds the rows of a group in the order of the
      joined rows;
    - failures of the store are described by a [Faults] record carried by the
      store, so that the error branches of the handlers can be exercised;
      [rows.Scan] cannot fail on the column types of the two statements and
      has no fault of its own. *)

From Stdlib Require Import ZArith QArith Qround Lia SpecFloat.
From stdpp Require Import gmap strings list fin_maps sorting.

Local Open Scope Z_scope.

(** ** Calendar dates (MySQL [DATE], Go [time.Time] at midnight) *)

Record Date := mkDate { year : Z; month : Z; day : Z }.

#[global] Instance Date_eq_dec : EqDecision Date.
Proof. solve_decision. Defined.

(** [a <= b] on [DATE] values: chronological, i.e. lexicographic order. *)
Definition date_le (a b : Date) : Prop :=
  year a < year b ∨
  (year a = year b ∧ (month a < month b ∨ (month a = month b ∧ day a ≤ day b))).

#[global] Instance date_le_dec a b : Decision (date_le a b).
Proof. unfold date_le. apply _. Defined.

(** ** The two tables *)

(** [trade_histories (user_id, fund_id, quantity, trade_date)] *)
Record TradeHistory := mkTrade {
  th_user_id : string;
  th_fund_id : Z;
  th_quantity : Z;
  th_trade_date : Date
}.

(** [reference_prices (fund_id, price, price_date)] *)
Record ReferencePrice := mkPrice {
  rp_fund_id : Z;
  rp_price : Q;
  rp_price_date : Date
}.

(** What can go wrong when the handlers talk to the store:
    - [query_err]: [db.Query] (or the [QueryRow] of the trade count) fails;
    - [rows_err]: the connection breaks while the result rows are read,
      after that many rows ([rows.Err() != nil] after the loop);
    - [price_err f]: the price lookup for fund [f] fails with an error other
      than [sql.ErrNoRows]. *)
Record Faults := mkFaults {
  query_err : bool;
  rows_err : option nat;
  price_err : Z → bool
}.

Definition no_faults : Faults :=
  {| query_err := false; rows_err := None; price_err := λ _, false |}.

(** The global [db] handle. *)
Record Store := mkStore {
  trade_histories : list TradeHistory;
  reference_prices : list ReferencePrice;
  faults : Faults
}.

(** [PRIMARY KEY (user_id, fund_id, trade_date)] *)
Definition trade_histories_pk (db : Store) : Prop :=
  NoDup ((λ th, (th_user_id th, th_fund_id th, th_trade_date th)) <$> trade_histories db).

(** [PRIMARY KEY (fund_id, price_date)] *)
Definition reference_prices_pk (db : Store) : Prop :=
  NoDup ((λ rp, (rp_fund_id rp, rp_price_date rp)) <$> reference_prices db).

(** ** Constants *)

Definition StatusBadRequest : Z := 400.
Definition StatusInternalServerError : Z := 500.

(** ** Arithmetic of [float64] and [DOUBLE] *)

(** The operations the handlers and the two position queries use on
    floating-point values: the constant 0, the four operations, the
    conversion [float64(n)] of an integer, the conversion of a [DECIMAL]
    value to a double (by [rows.Scan] into a [float64], and by the store when
    a [DECIMAL] meets a [DOUBLE] operand), and [int64(math.Floor(x))]; with
    them, that the floor of 0 and of 0 - 0 is 0. *)
Class Float64 := {
  float64 : Type;
  f64_zero : float64;
  f64_add : float64 → float64 → float64;
  f64_sub : float64 → float64 → float64;
  f64_mul : float64 → float64 → float64;
  f64_div : float64 → float64 → float64;
  f64_of_int : Z → float64;
  f64_of_decimal : Q → float64;
  f64_floor : float64 → Z;
  f64_floor_zero : f64_floor f64_zero = 0;
  f64_floor_zero_sub : f64_floor (f64_sub f64_zero f64_zero) = 0
}.

Declare Scope float64_scope.
Delimit Scope float64_scope with f64.
Infix "+" := f64_add : float64_scope.
Infix "-" := f64_sub : float64_scope.
Infix "*" := f64_mul : float64_scope.
Infix "/" := f64_div : float64_scope.

(** Precision and exponent bound of IEEE 754 double precision. *)
Definition binary64_prec : Z := 53.
Definition binary64_emax : Z := 1024.

(** The double nearest to an integer (ties to even). *)
Definition double_of_int (n : Z) : spec_float :=
  binary_normalize binary64_prec binary64_emax n 0 false.

(** The double nearest to a decimal value [n / d] (ties to even): the
    correctly rounded quotient of the two integers. *)
Definition double_of_decimal (q : Q) : spec_float :=
  match Qnum q with
  | Z0 => S754_zero false
  | Zpos n =>
      SFdiv binary64_prec binary64_emax
        (S754_finite false n 0) (S754_finite false (Qden q) 0)
  | Zneg n =>
      SFdiv binary64_prec binary64_emax
        (S754_finite true n 0) (S754_finite false (Qden q) 0)
  end.

Definition min_int64 : Z := - 2 ^ 63.

(** [int64(math.Floor(x))]: the largest integer at or below [x]. Where that
    integer is not an [int64], and for infinities and NaN, the conversion is
    implementation-dependent in Go; on amd64 it yields the least [int64]. *)
Definition int64_of_floor (x : spec_float) : Z :=
  match x with
  | S754_zero _ => 0
  | S754_finite s m e =>
      let n := if s then Z.neg m else Z.pos m in
      let floor := if decide (0 ≤ e) then n * 2 ^ e else n `div` 2 ^ (- e) in
      if decide (- 2 ^ 63 ≤ floor < 2 ^ 63) then floor else min_int64
  | S754_infinity _ | S754_nan => min_int64
  end.

(** The arithmetic the code runs on. *)
Definition binary64 : Float64 := {|
  float64 := spec_float;
  f64_zero := S754_zero false;
  f64_add := SFadd binary64_prec binary64_emax;
  f64_sub := SFsub binary64_prec binary64_emax;
  f64_mul := SFmul binary64_prec binary64_emax;
  f64_div := SFdiv binary64_prec binary64_emax;
  f64_of_int := double_of_int;
  f64_of_decimal := double_of_decimal;
  f64_floor := int64_of_floor;
  f64_floor_zero := eq_refl;
  f64_floor_zero_sub := eq_refl
|}.

(** Arithmetic without rounding: the rationals. *)
Definition rational : Float64 := {|
  float64 := Q;
  f64_zero := 0%Q;
  f64_add := Qplus;
  f64_sub := Qminus;
  f64_mul := Qmult;
  f64_div := Qdiv;
  f64_of_int := inject_Z;
  f64_of_decimal := λ q, q;
  f64_floor := Qfloor;
  f64_floor_zero := eq_refl;
  f64_floor_zero_sub := eq_refl
|}.

(** ** SQL building blocks *)

(** [SUM] over an integer column. *)
Definition sumZ (l : list Z) : Z := foldr Z.add 0 l.

(** [GROUP BY key]: one group per distinct key, holding the rows with it. *)
Definition group_by {A K : Type} `{EqDecision K} (key : A → K) (rows : list A)
  : list (K * list A) :=
  (λ k, (k, filter (λ r, key r = k) rows)) <$> remove_dups (key <$> rows).

(** [trade_histories th JOIN reference_prices rp_buy
      ON th.fund_id = rp_buy.fund_id AND th.trade_date = rp_buy.price_date] *)
Definition join_on (th : TradeHistory) (rp : ReferencePrice) : Prop :=
  th_fund_id th = rp_fund_id rp ∧ th_trade_date th = rp_price_date rp.

#[global] Instance join_on_dec th rp : Decision (join_on th rp).
Proof. unfold join_on. apply _. Defined.

Definition joined (db : Store) : list (TradeHistory * ReferencePrice) :=
  th ← trade_histories db;
  (λ rp, (th, rp)) <$> filter (join_on th) (reference_prices db).

(** [WHERE th.user_id = ? AND th.trade_date <= ?] *)
Definition where_user_date (userID : string) (date : Date)
    (row : TradeHistory * ReferencePrice) : Prop :=
  th_user_id row.1 = userID ∧ date_le (th_trade_date row.1) date.

#[global] Instance where_user_date_dec u d row : Decision (where_user_date u d row).
Proof. unfold where_user_date. apply _. Defined.

(** [SUM(th.quantity)] *)
Definition sum_quantity (g : list (TradeHistory * ReferencePrice)) : Z :=
  sumZ ((λ row, th_quantity row.1) <$> g).

(** [SELECT COUNT( * ) FROM trade_histories WHERE user_id = ?] *)
Definition selectCount (db : Store) (userID : string) : Z :=
  Z.of_nat (length (filter (λ th, th_user_id th = userID) (trade_histories db))).

(** [ORDER BY price_date DESC] *)
Definition price_date_desc (a b : ReferencePrice) : Prop :=
  date_le (rp_price_date b) (rp_price_date a).

#[global] Instance price_date_desc_dec a b : Decision (price_date_desc a b).
Proof. unfold price_date_desc. apply _. Defined.

(** [SELECT price FROM reference_prices
    WHERE fund_id = ? AND price_date <= ?
    ORDER BY price_date DESC LIMIT 1] *)
Definition selectLatestPrice (db : Store) (fundID : Z) (date : Date)
  : option Q :=
  rp_price <$>
    head (merge_sort price_date_desc
            (filter (λ rp, rp_fund_id rp = fundID ∧ date_le (rp_price_date rp) date)
                    (reference_prices db))).

(** ** Access to the store from Go *)

(** [db.Query]: [None] is a non-nil [err]; otherwise the rows that
    [rows.Next()] delivers before the iteration stops. *)
Definition dbQuery {A : Type} (db : Store) (result : list A) : option (list A) :=
  if query_err (faults db) then None
  else match rows_err (faults db) with
       | Some n => Some (take n result)
       | None => Some result
       end.

(** [db.QueryRow(...).Scan(&x)] *)
Inductive ScanResult (A : Type) : Type :=
  | Scanned (a : A)
  | ErrNoRows
  | ScanErr.
Arguments Scanned {A} a.
Arguments ErrNoRows {A}.
Arguments ScanErr {A}.

(** The price lookup both valuation handlers perform per fund. *)
Definition queryLatestPrice (db : Store) (fundID : Z) (date : Date) : ScanResult Q :=
  if price_err (faults db) fundID then ScanErr
  else match selectLatestPrice db fundID date with
       | Some price => Scanned price
       | None => ErrNoRows
       end.

(** The count lookup of [getTradesCountHandler]. *)
Definition queryCount (db : Store) (userID : string) : ScanResult Z :=
  if query_err (faults db) then ScanErr else Scanned (selectCount db userID).

(** ** Go maps *)

(** [for k, v := range m] visits every entry of [m] once, in an order the
    language leaves unspecified: a run of a handler is determined by the
    order an oracle picks. *)
Definition RangeOracle : Type := ∀ V : Type, gmap Z V → list (Z * V).

Definition range_ok (range : RangeOracle) : Prop :=
  ∀ (V : Type) (m : gmap Z V), range V m ≡ₚ map_to_list m.

(** Two orders used in the examples: the order in which the map lists its
    entries, and the reverse. *)
Definition range_stored : RangeOracle := λ V m, map_to_list m.
Definition range_reversed : RangeOracle := λ V m, reverse (map_to_list m).

(** ** Bodies of the responses *)

Module AssetData.
Record t := mk { Date : Date; CurrentValue : Z; CurrentPL : Z }.
End AssetData.

Module YearlyAsset.
Record t := mk { Year : Z; CurrentValue : Z; CurrentPL : Z }.
End YearlyAsset.

Module AssetsByYearResponse.
Record t := mk { Date : Date; Assets : list YearlyAsset.t }.
End AssetsByYearResponse.

Module TradesResponse.
Record t := mk { Count : Z }.
End TradesResponse.

(** What a handler writes: a JSON body with status 200, or [http.Error]. *)
Inductive Response (A : Type) : Type :=
  | HttpOK (body : A)
  | HttpError (status : Z).
Arguments HttpOK {A} body.
Arguments HttpError {A} status.

(** The [date] query parameter: empty, rejected by [time.Parse], or parsed. *)
Inductive DateParam : Type :=
  | DateAbsent
  | DateMalformed
  | DateParsed (d : Date).

(** ** [getTradesCountHandler] *)

Definition getTradesCountHandler (db : Store) (userID : string)
  : Response TradesResponse.t :=
  match queryCount db userID with
  | Scanned count => HttpOK (TradesResponse.mk count)
  | _ => HttpError StatusInternalServerError
  end.

(** ** Sorting the years *)

(** The comparison handed to [sort.Slice]. *)
Definition year_less (a b : YearlyAsset.t) : Prop :=
  YearlyAsset.Year a > YearlyAsset.Year b.

(** [sort.Slice(s, less)]: a rearrangement of [s] in which no element is
    [less] than one before it. *)
Definition sortSlice (less : YearlyAsset.t → YearlyAsset.t → Prop)
    `{∀ a b, Decision (less a b)} (s : list YearlyAsset.t) : list YearlyAsset.t :=
  merge_sort (λ a b, ¬ less b a) s.

#[global] Instance year_less_dec a b : Decision (year_less a b).
Proof. unfold year_less. apply _. Defined.

(** ** The valuation handlers

    Everything from here to the end of the section computes on [float64]
    values and is written over the number system [F]. *)

Section valuation.

Context {F : Float64}.

(** The untyped constant [10000.0]: a [float64] wherever the code uses it. *)
Definition UNIT_PER_PRICE_BASE : float64 := f64_of_int 10000.

(** [SUM] over a [DOUBLE] expression: the values are added one after the
    other, from 0. *)
Definition sum_double (l : list float64) : float64 := foldl f64_add f64_zero l.

(** [th.quantity * rp_buy.price / ?] with [?] bound to the [float64]
    [UNIT_PER_PRICE_BASE]: the product of an [INT] and a [DECIMAL] is an
    exact [DECIMAL]; it is converted to a double for the division. *)
Definition buy_cost (row : TradeHistory * ReferencePrice) : float64 :=
  (f64_of_decimal (inject_Z (th_quantity row.1) * rp_price row.2)%Q
   / UNIT_PER_PRICE_BASE)%f64.

(** [SUM(th.quantity * rp_buy.price / ?)] *)
Definition sum_buy_cost (g : list (TradeHistory * ReferencePrice)) : float64 :=
  sum_double (buy_cost <$> g).

(** Result row of the position query of [getAssetsHandler]. *)
Record PositionRow := mkPositionRow {
  pr_fund_id : Z;
  pr_total_quantity : Z;
  pr_total_buy_cost : float64
}.

(** [SELECT th.fund_id, SUM(th.quantity) AS total_quantity,
           SUM(th.quantity * rp_buy.price / ?) AS total_buy_cost
    FROM ... JOIN ... WHERE th.user_id = ? AND th.trade_date <= ?
    GROUP BY th.fund_id HAVING total_quantity > 0] *)
Definition selectPositions (db : Store) (userID : string) (date : Date)
  : list PositionRow :=
  let rows := filter (where_user_date userID date) (joined db) in
  let groups := group_by (λ row, th_fund_id row.1) rows in
  filter (λ r, 0 < pr_total_quantity r)
    ((λ g, mkPositionRow g.1 (sum_quantity g.2) (sum_buy_cost g.2)) <$> groups).

(** Result row of the query of [getAssetsByYearHandler]. *)
Record YearRow := mkYearRow {
  yr_trade_year : Z;
  yr_fund_id : Z;
  yr_total_quantity : Z;
  yr_total_buy_cost : float64
}.

(** Same statement with [YEAR(th.trade_date) AS trade_year] selected and
    [GROUP BY trade_year, th.fund_id]. *)
Definition selectPositionsByYear (db : Store) (userID : string) (date : Date)
  : list YearRow :=
  let rows := filter (where_user_date userID date) (joined db) in
  let groups := group_by (λ row, (year (th_trade_date row.1), th_fund_id row.1)) rows in
  filter (λ r, 0 < yr_total_quantity r)
    ((λ g, mkYearRow g.1.1 g.1.2 (sum_quantity g.2) (sum_buy_cost g.2)) <$> groups).

(** [db.QueryRow(...).Scan(&currentPrice)] with [currentPrice] a [float64]:
    the [DECIMAL] price of the row found is converted to a double. *)
Definition scanLatestPrice (db : Store) (fundID : Z) (date : Date)
  : ScanResult float64 :=
  match queryLatestPrice db fundID date with
  | Scanned price => Scanned (f64_of_decimal price)
  | ErrNoRows => ErrNoRows
  | ScanErr => ScanErr
  end.

(** [Position] (its [TradeDate] field is never set by the handlers). *)
Record Position := mkPosition {
  FundID : Z;
  TotalQuantity : Z;
  TotalBuyCost : float64
}.

(** *** [getAssetsHandler] *)

(** The [rows.Next()] loop filling [positions]. *)
Definition collectPositions (rows : list PositionRow) : gmap Z Position :=
  foldl (λ positions r,
           <[pr_fund_id r :=
               mkPosition (pr_fund_id r) (pr_total_quantity r) (pr_total_buy_cost r)]>
             positions)
        ∅ rows.

(** One iteration of [for _, pos := range positions]; the accumulator is
    [(totalCurrentValue, totalBuyAmount)]. *)
Definition valuePosition (db : Store) (targetDate : Date)
    (acc : float64 * float64) (pos : Position) : float64 * float64 :=
  match scanLatestPrice db (FundID pos) targetDate with
  | ErrNoRows => acc
  | ScanErr => acc
  | Scanned currentPrice =>
      let currentValue :=
        ((currentPrice * f64_of_int (TotalQuantity pos)) / UNIT_PER_PRICE_BASE)%f64 in
      ((acc.1 + currentValue)%f64, (acc.2 + TotalBuyCost pos)%f64)
  end.

Definition valuationLoop (db : Store) (targetDate : Date)
    (visited : list Position) : float64 * float64 :=
  foldl (valuePosition db targetDate) (f64_zero, f64_zero) visited.

(** The body sent once the loop is over. *)
Definition assetData (targetDate : Date) (totals : float64 * float64) : AssetData.t :=
  let totalCurrentValue := totals.1 in
  let totalBuyAmount := totals.2 in
  AssetData.mk targetDate
    (f64_floor totalCurrentValue)
    (f64_floor (totalCurrentValue - totalBuyAmount)%f64).

(** Everything after the position query succeeded: fill [positions], run
    the loop over the map, encode the body. *)
Definition assetsResponse (range : RangeOracle) (db : Store)
    (targetDate : Date) (rows : list PositionRow) : Response AssetData.t :=
  let positions := collectPositions rows in
  HttpOK (assetData targetDate
            (valuationLoop db targetDate (snd <$> range _ positions))).

Definition getAssetsHandler (range : RangeOracle) (db : Store) (today : Date)
    (userID : string) (dateParam : DateParam) : Response AssetData.t :=
  let serve (targetDate : Date) :=
    match dbQuery db (selectPositions db userID targetDate) with
    | None => HttpError StatusInternalServerError
    | Some rows => assetsResponse range db targetDate rows
    end in
  match dateParam with
  | DateMalformed => HttpError StatusBadRequest
  | DateParsed parsedDate => serve parsedDate
  | DateAbsent => serve today
  end.

(** *** [getAssetsByYearHandler] *)

Record yearlyFundData := mkYearly {
  CurrentValueSum : float64;
  BuyAmountSum : float64
}.

(** State of the [rows.Next()] loop. *)
Record YearLoop := mkYearLoop {
  yearlySummary : gmap Z yearlyFundData;
  priceCache : gmap Z float64
}.

(** The price of a fund through [priceCache]: the price and the cache
    afterwards, or [None] when the iteration is abandoned ([continue]). *)
Definition cachedPrice (db : Store) (currentDate : Date)
    (cache : gmap Z float64) (fundID : Z) : option (float64 * gmap Z float64) :=
  match cache !! fundID with
  | Some currentPrice => Some (currentPrice, cache)
  | None =>
      match scanLatestPrice db fundID currentDate with
      | ErrNoRows => None
      | ScanErr => None
      | Scanned currentPrice => Some (currentPrice, <[fundID := currentPrice]> cache)
      end
  end.

(** One iteration of the [rows.Next()] loop. *)
Definition yearStep (db : Store) (currentDate : Date)
    (st : YearLoop) (row : YearRow) : YearLoop :=
  match cachedPrice db currentDate (priceCache st) (yr_fund_id row) with
  | None => st
  | Some (currentPrice, cache) =>
      let currentValueForFund :=
        ((currentPrice * f64_of_int (yr_total_quantity row)) / UNIT_PER_PRICE_BASE)%f64 in
      let data := default (mkYearly f64_zero f64_zero)
                          (yearlySummary st !! yr_trade_year row) in
      let data := mkYearly (CurrentValueSum data + currentValueForFund)%f64
                           (BuyAmountSum data + yr_total_buy_cost row)%f64 in
      mkYearLoop (<[yr_trade_year row := data]> (yearlySummary st)) cache
  end.

Definition yearLoop (db : Store) (currentDate : Date) (rows : list YearRow)
  : YearLoop :=
  foldl (yearStep db currentDate) (mkYearLoop ∅ ∅) rows.

(** [YearlyAsset{Year: year, ...}] built from one entry of [yearlySummary]. *)
Definition yearlyAsset (entry : Z * yearlyFundData) : YearlyAsset.t :=
  let year := entry.1 in
  let data := entry.2 in
  YearlyAsset.mk year
    (f64_floor (CurrentValueSum data))
    (f64_floor (CurrentValueSum data - BuyAmountSum data)%f64).

(** The [yearlyAssets] slice after [sort.Slice]. *)
Definition yearlyAssets (range : RangeOracle) (db : Store)
    (currentDate : Date) (rows : list YearRow) : list YearlyAsset.t :=
  let st := yearLoop db currentDate rows in
  sortSlice year_less (yearlyAsset <$> range _ (yearlySummary st)).

(** Everything after the grouped query succeeded. *)
Definition assetsByYearResponse (range : RangeOracle) (db : Store)
    (currentDate : Date) (rows : list YearRow) : Response AssetsByYearResponse.t :=
  HttpOK (AssetsByYearResponse.mk currentDate (yearlyAssets range db currentDate rows)).

Definition getAssetsByYearHandler (range : RangeOracle) (db : Store)
    (today : Date) (userID : string) : Response AssetsByYearResponse.t :=
  let currentDate := today in
  match dbQuery db (selectPositionsByYear db userID currentDate) with
  | None => HttpError StatusInternalServerError
  | Some rows => assetsByYearResponse range db currentDate rows
  end.

End valuation.

(** ** A small ledger used by the examples *)

Definition ymd (y m dd : Z) : Date := mkDate y m dd.

(** User [u1] bought fund 1 in 2023 and in 2024, fund 2 on a day without a
    reference price, and is short of fund 3. *)
Definition demo_db : Store :=
  mkStore
    [ mkTrade "u1" 1 20000 (ymd 2024 1 10);
      mkTrade "u1" 2 5000 (ymd 2024 2 1);
      mkTrade "u1" 1 10000 (ymd 2023 3 5);
      mkTrade "u1" 3 (-700) (ymd 2024 1 10);
      mkTrade "u2" 1 400 (ymd 2024 1 10) ]
    [ mkPrice 1 100 (ymd 2024 1 10);
      mkPrice 1 110 (ymd 2024 6 1);
      mkPrice 1 90 (ymd 2023 3 5);
      mkPrice 3 50 (ymd 2024 1 10) ]
    no_faults.

(** The scenario ledger: [u1] bought 20000 units of fund 1 on 2024-01-10 at
    100.00, a later price of 110.00 is recorded on 2024-06-01, and the trade
    of fund 2 on 2024-02-01 has no reference price on that day. *)
Definition scenario_db : Store :=
  mkStore
    [ mkTrade "u1" 1 20000 (ymd 2024 1 10);
      mkTrade "u1" 2 30000 (ymd 2024 2 1) ]
    [ mkPrice 1 100 (ymd 2024 1 10);
      mkPrice 1 110 (ymd 2024 6 1);
      mkPrice 2 70 (ymd 2024 3 1) ]
    no_faults.

(** One purchase at a price that is not a double: 50000 units of fund 1 at
    4.60. *)
Definition rounding_db : Store :=
  mkStore
    [ mkTrade "u1" 1 50000 (ymd 2024 1 10) ]
    [ mkPrice 1 (460 # 100) (ymd 2024 1 10) ]
    no_faults.

(** Three purchases of 100 units on one day, at 10.00, 20.00 and 70.00: the
    positions are worth 0.1, 0.2 and 0.7. *)
Definition three_funds_db : Store :=
  mkStore
    [ mkTrade "u1" 1 100 (ymd 2024 1 10);
      mkTrade "u1" 2 100 (ymd 2024 1 10);
      mkTrade "u1" 3 100 (ymd 2024 1 10) ]
    [ mkPrice 1 10 (ymd 2024 1 10);
      mkPrice 2 20 (ymd 2024 1 10);
      mkPrice 3 70 (ymd 2024 1 10) ]
    no_faults.

(** * Notions used to state the properties *)

(** The rows a price lookup may choose from. *)
Definition price_candidate (fundID : Z) (date : Date) (rp : ReferencePrice) : Prop :=
  rp_fund_id rp = fundID ∧ date_le (rp_price_date rp) date.

(** A trade has a reference price of its fund on its exact trade date. *)
Definition has_price (db : Store) (th : TradeHistory) : Prop :=
  Exists (join_on th) (reference_prices db).

#[global] Instance has_price_dec db th : Decision (has_price db th).
Proof. unfold has_price. apply _. Defined.

(** Sum of the quantities of the trades of [userID] dated at or before
    [date] that have a same-date reference price and satisfy [sel]. *)
Definition priced_quantity (db : Store) (userID : string) (date : Date)
    (sel : TradeHistory → Prop) `{∀ th, Decision (sel th)} : Z :=
  sumZ (th_quantity <$>
        filter (λ th, th_user_id th = userID ∧ date_le (th_trade_date th) date ∧
                      has_price db th ∧ sel th)
               (trade_histories db)).

(** The store with another trade table. *)
Definition with_trades (db : Store) (trades : list TradeHistory) : Store :=
  mkStore trades (reference_prices db) (faults db).

(** The rows of the join that pass the [WHERE] clause. *)
Definition selected_rows (db : Store) (userID : string) (date : Date)
  : list (TradeHistory * ReferencePrice) :=
  filter (where_user_date userID date) (joined db).

(** The group of a fund, and of a (year, fund) pair, before [HAVING]. *)
Definition fund_group (db : Store) (userID : string) (date : Date) (f : Z)
  : list (TradeHistory * ReferencePrice) :=
  filter (λ row, th_fund_id row.1 = f) (selected_rows db userID date).

Definition year_fund_group (db : Store) (userID : string) (date : Date) (y f : Z)
  : list (TradeHistory * ReferencePrice) :=
  filter (λ row, (year (th_trade_date row.1), th_fund_id row.1) = (y, f))
         (selected_rows db userID date).

(** Number of rows of a trade table that belong to [userID]. *)
Fixpoint raw_row_count (userID : string) (trades : list TradeHistory) : Z :=
  match trades with
  | [] => 0
  | th :: rest =>
      (if decide (th_user_id th = userID) then 1 else 0) + raw_row_count userID rest
  end.

(** The target date a request is served for, if any. *)
Definition target_date (today : Date) (dateParam : DateParam) : option Date :=
  match dateParam with
  | DateMalformed => None
  | DateParsed parsedDate => Some parsedDate
  | DateAbsent => Some today
  end.

(** Two held funds; the store fails the price lookup of fund 4. *)
Definition flaky_db : Store :=
  mkStore
    [ mkTrade "u1" 1 20000 (ymd 2024 1 10);
      mkTrade "u1" 4 10000 (ymd 2024 1 10) ]
    [ mkPrice 1 100 (ymd 2024 1 10);
      mkPrice 4 50 (ymd 2024 1 10) ]
    (mkFaults false None (λ f, bool_decide (f = 4))).

(** The store with another price table. *)
Definition with_prices (db : Store) (prices : list ReferencePrice) : Store :=
  mkStore (trade_histories db) prices (faults db).

(** Sum of rationals. *)
Definition sumQ (l : list Q) : Q := foldr Qplus 0%Q l.

Section valuation_notions.

Context {F : Float64}.

Definition toPosition (r : PositionRow) : Position :=
  mkPosition (pr_fund_id r) (pr_total_quantity r) (pr_total_buy_cost r).

(** The price a fund is valued at during one request, if any. *)
Definition resolved (db : Store) (currentDate : Date) (fundID : Z) : option float64 :=
  match scanLatestPrice db fundID currentDate with
  | Scanned price => Some price
  | ErrNoRows | ScanErr => None
  end.

(** The value of a quantity at a price. *)
Definition value_at (price : float64) (quantity : Z) : float64 :=
  ((price * f64_of_int quantity) / UNIT_PER_PRICE_BASE)%f64.

(** What a held position adds to the two totals: its value at the resolved
    price and its buy cost, or nothing when no price is resolved. *)
Definition contribution (db : Store) (targetDate : Date) (pos : Position)
  : option (float64 * float64) :=
  match resolved db targetDate (FundID pos) with
  | Some price => Some (value_at price (TotalQuantity pos), TotalBuyCost pos)
  | None => None
  end.

(** The two totals over a list of positions, added in the order of the
    list. *)
Definition value_sum (db : Store) (targetDate : Date) (held : list Position)
  : float64 :=
  sum_double (fst <$> omap (contribution db targetDate) held).

Definition cost_sum (db : Store) (targetDate : Date) (held : list Position)
  : float64 :=
  sum_double (snd <$> omap (contribution db targetDate) held).

(** What a (year, fund) row adds to its year: the value of its quantity at
    the fund's resolved price and its buy cost, or nothing. *)
Definition year_contribution (db : Store) (currentDate : Date) (row : YearRow)
  : option (Z * (float64 * float64)) :=
  match resolved db currentDate (yr_fund_id row) with
  | Some price =>
      Some (yr_trade_year row,
            (value_at price (yr_total_quantity row), yr_total_buy_cost row))
  | None => None
  end.

(** The contributions of the purchase cohort of year [y], in the order of
    the rows. *)
Definition cohort (db : Store) (currentDate : Date) (rows : list YearRow) (y : Z)
  : list (float64 * float64) :=
  snd <$> filter (λ c, c.1 = y) (omap (year_contribution db currentDate) rows).

Definition cohort_value (db : Store) (currentDate : Date) (rows : list YearRow)
    (y : Z) : float64 :=
  sum_double (fst <$> cohort db currentDate rows y).

Definition cohort_cost (db : Store) (currentDate : Date) (rows : list YearRow)
    (y : Z) : float64 :=
  sum_double (snd <$> cohort db currentDate rows y).

(** [priceCache] only ever holds resolved prices. *)
Definition cache_sound (db : Store) (currentDate : Date) (cache : gmap Z float64)
  : Prop :=
  ∀ f p, cache !! f = Some p → scanLatestPrice db f currentDate = Scanned p.

(** [yearlySummary] has an entry exactly for the years with a contribution,
    holding the sums of that year's cohort. *)
Definition summary_of_cohorts (db : Store) (currentDate : Date)
    (summary : gmap Z yearlyFundData) (rows : list YearRow) : Prop :=
  ∀ y, match summary !! y with
       | None => cohort db currentDate rows y = []
       | Some data =>
           cohort db currentDate rows y ≠ [] ∧
           CurrentValueSum data = cohort_value db currentDate rows y ∧
           BuyAmountSum data = cohort_cost db currentDate rows y
       end.

(** One iteration of the year loop that asks the store for the price of
    every row, without [priceCache]. *)
Definition yearStepDirect (db : Store) (currentDate : Date)
    (summary : gmap Z yearlyFundData) (row : YearRow) : gmap Z yearlyFundData :=
  match scanLatestPrice db (yr_fund_id row) currentDate with
  | ErrNoRows | ScanErr => summary
  | Scanned currentPrice =>
      let currentValueForFund :=
        ((currentPrice * f64_of_int (yr_total_quantity row)) / UNIT_PER_PRICE_BASE)%f64 in
      let data := default (mkYearly f64_zero f64_zero)
                          (summary !! yr_trade_year row) in
      let data := mkYearly (CurrentValueSum data + currentValueForFund)%f64
                           (BuyAmountSum data + yr_total_buy_cost row)%f64 in
      <[yr_trade_year row := data]> summary
  end.

End valuation_notions.

(** The totals of the rational valuation, as sums of rationals. *)
Definition exact_value (db : Store) (targetDate : Date)
    (held : list (@Position rational)) : Q :=
  sumQ (fst <$> omap (contribution db targetDate) held).

Definition exact_cost (db : Store) (targetDate : Date)
    (held : list (@Position rational)) : Q :=
  sumQ (snd <$> omap (contribution db targetDate) held).

(** A double that is not negative: +0, a positive number, +infinity, or
    NaN (which has no sign). *)
Definition not_negative (x : spec_float) : Prop :=
  match x with
  | S754_zero s | S754_infinity s | S754_finite s _ _ => s = false
  | S754_nan => True
  end.

(** * The programs around the server *)

(** ** Waiting for the database ([main]) *)

Definition DB_RETRY_ATTEMPTS : nat := 10.

(** State of the retry loop: whether [err] is non-nil, the number of
    [db.Ping()] calls and of [time.Sleep(DB_RETRY_INTERVAL)] so far. *)
Record PingRun := mkPingRun {
  ping_err : bool;
  pings : nat;
  sleeps : nat
}.

(** [for i := 0; i < attempts; i++ { err = db.Ping(); if err == nil { break };
    log.Printf(...); time.Sleep(DB_RETRY_INTERVAL) }], where [ping i] tells
    whether the ping of iteration [i] succeeds. *)
Fixpoint pingLoop (ping : nat → bool) (i remaining : nat) (run : PingRun) : PingRun :=
  match remaining with
  | O => run
  | S remaining' =>
      if ping i then mkPingRun false (S (pings run)) (sleeps run)
      else pingLoop ping (S i) remaining'
             (mkPingRun true (S (pings run)) (S (sleeps run)))
  end.

(** The loop of [main], entered with a nil [err] once [sql.Open] succeeded;
    [main] stops with [log.Fatalf] when [err] is non-nil afterwards. *)
Definition waitForDatabase (ping : nat → bool) : PingRun :=
  pingLoop ping 0 DB_RETRY_ATTEMPTS (mkPingRun false 0 0).

(** ** The import program *)

(** What [reader.Read()] returns for one record of the file; the end of the
    list is [io.EOF]. *)
Inductive CsvRead : Type :=
  | CsvRecord (record : list string)
  | CsvError.

(** The errors the importers return: one per [return fmt.Errorf(...)], and
    the error of [txn.Commit()] that [importCSVToDB] returns. *)
Inductive ImportError : Type :=
  | ErrOpen
  | ErrEmpty
  | ErrHeader
  | ErrBegin
  | ErrPrepare
  | ErrRead
  | ErrColumns (n : nat)
  | ErrFundID (field : string)
  | ErrQuantity (field : string)
  | ErrDate (field : string)
  | ErrInsert (record : list string)
  | ErrCommit.

(** Failures of [db.Begin], [tx.Prepare] and [tx.Commit]. *)
Record TxFaults := mkTxFaults {
  begin_err : bool;
  prepare_err : bool;
  commit_err : bool
}.

Section import_core.

Context {Args Row K : Type} `{EqDecision K}.

(** The two importers differ in three things: the checks and conversions
    made on a record ([convert]), the row the store makes of the statement
    arguments unless it refuses them ([stored]), and the primary key of the
    table ([key]). *)
Context (convert : list string → ImportError + Args).
Context (stored : Args → option Row).
Context (key : Row → K).

(** [stmt.Exec(...)] inside the transaction: [None] is an error (refused
    value or duplicate entry for the primary key); a failed statement leaves
    the rows inserted before it in the transaction. *)
Definition execInsert (pending : list Row) (args : Args) : option (list Row) :=
  match stored args with
  | None => None
  | Some row =>
      if decide (key row ∈ key <$> pending) then None else Some (pending ++ [row])
  end.

(** The [for] loop over the records: the rows of the transaction and what
    the function returns. *)
Fixpoint importLoop (pending : list Row) (reads : list CsvRead)
  : list Row * option ImportError :=
  match reads with
  | [] => (pending, None)
  | CsvError :: _ => (pending, Some ErrRead)
  | CsvRecord record :: rest =>
      match convert record with
      | inl e => (pending, Some e)
      | inr args =>
          match execInsert pending args with
          | None => (pending, Some (ErrInsert record))
          | Some pending' => importLoop pending' rest
          end
      end
  end.

(** The importer: the table afterwards and the returned error. [file] is
    [None] when [os.Open] fails. The deferred function tests the [err] of
    the function scope, which the loop never assigns (the loop declares its
    own [err], and the results are not named): once [tx.Prepare] succeeded it
    calls [tx.Commit()] however the loop ended, and the error of the commit
    is dropped. *)
Definition importCSV (faults : TxFaults) (file : option (list CsvRead))
    (table : list Row) : list Row * option ImportError :=
  match file with
  | None => (table, Some ErrOpen)
  | Some [] => (table, Some ErrEmpty)
  | Some (CsvError :: _) => (table, Some ErrHeader)
  | Some (CsvRecord _ :: reads) =>
      if begin_err faults then (table, Some ErrBegin)
      else if prepare_err faults then (table, Some ErrPrepare)
      else
        let '(pending, result) := importLoop table reads in
        (if commit_err faults then table else pending, result)
  end.

End import_core.

(** The checks and conversions of [importTradeHistories] on one record;
    [Atoi] is [strconv.Atoi] and [parseDate] is [time.Parse] with the layout
    ["2006-01-02"]. *)
Definition tradeOfRecord (Atoi : string → option Z) (parseDate : string → option Date)
    (record : list string) : ImportError + TradeHistory :=
  match record with
  | [f0; f1; f2; f3] =>
      let userID := f0 in
      match Atoi f1 with
      | None => inl (ErrFundID f1)
      | Some fundID =>
          match Atoi f2 with
          | None => inl (ErrQuantity f2)
          | Some quantity =>
              match parseDate f3 with
              | None => inl (ErrDate f3)
              | Some tradeDate => inr (mkTrade userID fundID quantity tradeDate)
              end
          end
      end
  | _ => inl (ErrColumns (length record))
  end.

Definition trade_key (th : TradeHistory) : string * Z * Date :=
  (th_user_id th, th_fund_id th, th_trade_date th).

(** [importTradeHistories]; [refused] tells which rows the store rejects
    for a reason of its own (a value out of the range of its column). *)
Definition importTradeHistories (Atoi : string → option Z)
    (parseDate : string → option Date) (refused : TradeHistory → bool)
    (faults : TxFaults) (file : option (list CsvRead)) (table : list TradeHistory)
  : list TradeHistory * option ImportError :=
  importCSV (tradeOfRecord Atoi parseDate)
            (λ th, if refused th then None else Some th)
            trade_key faults file table.

(** The checks and conversions of [importReferencePrices] on one record: the
    price stays the string of the file. *)
Definition priceOfRecord (Atoi : string → option Z) (parseDate : string → option Date)
    (record : list string) : ImportError + (Z * string * Date) :=
  match record with
  | [f0; f1; f2] =>
      match Atoi f0 with
      | None => inl (ErrFundID f0)
      | Some fundID =>
          let price := f1 in
          match parseDate f2 with
          | None => inl (ErrDate f2)
          | Some priceDate => inr (fundID, price, priceDate)
          end
      end
  | _ => inl (ErrColumns (length record))
  end.

Definition price_key (rp : ReferencePrice) : Z * Date :=
  (rp_fund_id rp, rp_price_date rp).

(** [importReferencePrices]; [decimal] is the conversion of a string to
    [DECIMAL(10,2)] by the store ([None]: not a decimal value). *)
Definition importReferencePrices (Atoi : string → option Z)
    (parseDate : string → option Date) (decimal : string → option Q)
    (refused : ReferencePrice → bool)
    (faults : TxFaults) (file : option (list CsvRead)) (table : list ReferencePrice)
  : list ReferencePrice * option ImportError :=
  importCSV (priceOfRecord Atoi parseDate)
            (λ args : Z * string * Date,
               match decimal args.1.2 with
               | None => None
               | Some price =>
                   let rp := mkPrice args.1.1 price args.2 in
                   if refused rp then None else Some rp
               end)
            price_key faults file table.

(** ** The example importer of the [users] table *)

Inductive UsersOutcome : Type :=
  | UsersDone
  | UsersFailed (e : ImportError)
  | UsersPanic.

(** The [for] loop of [importCSVToDB]: [record[0]] and [record[1]] are read
    without a check of the number of fields (index out of range: a panic),
    and a record whose age is not a number is skipped. Rows are the [name]
    and [age] given to the statement; the [id] is assigned by the store. *)
Fixpoint usersLoop (Atoi : string → option Z) (refused : string * Z → bool)
    (pending : list (string * Z)) (reads : list CsvRead)
  : list (string * Z) * UsersOutcome :=
  match reads with
  | [] => (pending, UsersDone)
  | CsvError :: _ => (pending, UsersFailed ErrRead)
  | CsvRecord record :: rest =>
      match record with
      | name :: field :: _ =>
          match Atoi field with
          | None => usersLoop Atoi refused pending rest
          | Some age =>
              if refused (name, age) then (pending, UsersFailed (ErrInsert record))
              else usersLoop Atoi refused (pending ++ [(name, age)]) rest
          end
      | _ => (pending, UsersPanic)
      end
  end.

(** [importCSVToDB]: [defer txn.Rollback()] undoes the transaction on every
    return but the one after a successful [txn.Commit()]. *)
Definition importCSVToDB (Atoi : string → option Z) (refused : string * Z → bool)
    (faults : TxFaults) (file : option (list CsvRead)) (table : list (string * Z))
  : list (string * Z) * UsersOutcome :=
  match file with
  | None => (table, UsersFailed ErrOpen)
  | Some [] | Some (CsvError :: _) => (table, UsersFailed ErrHeader)
  | Some (CsvRecord _ :: reads) =>
      if begin_err faults then (table, UsersFailed ErrBegin)
      else if prepare_err faults then (table, UsersFailed ErrPrepare)
      else
        match usersLoop Atoi refused table reads with
        | (pending, UsersDone) =>
            if commit_err faults then (table, UsersFailed ErrCommit)
            else (pending, UsersDone)
        | (_, outcome) => (table, outcome)
        end
  end.

(** ** Readers used to run the importers on examples *)

(** A reader of signed decimal numerals in the range of a 64-bit [int],
    standing for [strconv.Atoi]. *)
Definition char_code (c : Ascii.ascii) : Z := Z.of_nat (Ascii.nat_of_ascii c).

Definition minus_sign : Z := 45.
Definition plus_sign : Z := 43.
Definition full_stop : Z := 46.

Definition digit_of (c : Ascii.ascii) : option Z :=
  let n := char_code c in
  if decide (48 ≤ n ≤ 57) then Some (n - 48) else None.

Fixpoint digits_value (acc : Z) (cs : list Ascii.ascii) : option Z :=
  match cs with
  | [] => Some acc
  | c :: cs' =>
      match digit_of c with
      | Some v => digits_value (10 * acc + v) cs'
      | None => None
      end
  end.

Definition atoi10 (s : string) : option Z :=
  let signed (negative : bool) (digits : list Ascii.ascii) : option Z :=
    match digits with
    | [] => None
    | _ =>
        match digits_value 0 digits with
        | Some v =>
            let n := if negative then - v else v in
            if decide (- 2 ^ 63 ≤ n < 2 ^ 63) then Some n else None
        | None => None
        end
    end in
  match String.list_ascii_of_string s with
  | [] => None
  | c :: cs =>
      if decide (char_code c = minus_sign) then signed true cs
      else if decide (char_code c = plus_sign) then signed false cs
      else signed false (c :: cs)
  end.

Definition days_in (y m : Z) : Z :=
  if decide (m = 2) then
    if decide (y mod 4 = 0 ∧ (y mod 100 ≠ 0 ∨ y mod 400 = 0)) then 29 else 28
  else if decide (m = 4 ∨ m = 6 ∨ m = 9 ∨ m = 11) then 30
  else 31.

(** A reader of [YYYY-MM-DD] dates, standing for [time.Parse] with the
    layout ["2006-01-02"]. *)
Definition parseISODate (s : string) : option Date :=
  match String.list_ascii_of_string s with
  | [y1; y2; y3; y4; s1; m1; m2; s2; d1; d2] =>
      match digits_value 0 [y1; y2; y3; y4], digits_value 0 [m1; m2],
            digits_value 0 [d1; d2] with
      | Some y, Some m, Some dd =>
          if decide (char_code s1 = minus_sign ∧ char_code s2 = minus_sign ∧
                     1 ≤ m ≤ 12 ∧ 1 ≤ dd ≤ days_in y m)
          then Some (mkDate y m dd) else None
      | _, _, _ => None
      end
  | _ => None
  end.

(** A reader of plain decimal numerals (an optional sign, digits, an optional
    point and digits), standing for the conversion of a string to
    [DECIMAL(10,2)] by the store: fraction digits beyond the second are
    rounded half away from zero, and a value that needs more than eight
    integer digits is refused. *)
Definition decimal2 (s : string) : option Q :=
  let cs := String.list_ascii_of_string s in
  let '(negative, numeral) :=
    match cs with
    | [] => (false, [])
    | c :: rest =>
        if decide (char_code c = minus_sign) then (true, rest)
        else if decide (char_code c = plus_sign) then (false, rest)
        else (false, cs)
    end in
  let '(whole, frac) :=
    match list_find (λ c, char_code c = full_stop) numeral with
    | Some (i, _) => (take i numeral, drop (S i) numeral)
    | None => (numeral, [])
    end in
  match whole ++ frac, digits_value 0 whole, digits_value 0 frac with
  | _ :: _, Some w, Some _ =>
      let digit (i : nat) : Z := default 0 (frac !! i ≫= digit_of) in
      let cents := 100 * w + 10 * digit 0%nat + digit 1%nat
                   + (if decide (5 ≤ digit 2%nat) then 1 else 0) in
      if decide (cents < 10 ^ 10)
      then Some (Qmake (if negative then - cents else cents) 100)
      else None
  | _, _, _ => None
  end.

(** No fault of the transaction, no row refused. *)
Definition no_tx_faults : TxFaults := mkTxFaults false false false.

(** A trade file whose third record has a quantity that is not a number. *)
Definition trades_csv_bad_quantity : list CsvRead :=
  [ CsvRecord ["user_id"; "fund_id"; "quantity"; "trade_date"];
    CsvRecord ["u1"; "1"; "20000"; "2024-01-10"];
    CsvRecord ["u2"; "1"; "400"; "2024-01-10"];
    CsvRecord ["u1"; "2"; "5,000"; "2024-02-01"];
    CsvRecord ["u1"; "3"; "700"; "2024-03-01"] ].

(** The records of that file before the bad one. *)
Definition trades_csv_good : list CsvRead :=
  [ CsvRecord ["user_id"; "fund_id"; "quantity"; "trade_date"];
    CsvRecord ["u1"; "1"; "20000"; "2024-01-10"];
    CsvRecord ["u2"; "1"; "400"; "2024-01-10"] ].

Definition prices_csv : list CsvRead :=
  [ CsvRecord ["fund_id"; "price"; "price_date"];
    CsvRecord ["1"; "100.00"; "2024-01-10"];
    CsvRecord ["1"; "110.5"; "2024-06-01"] ].

Definition users_csv : list CsvRead :=
  [ CsvRecord ["name"; "age"];
    CsvRecord ["ann"; "31"];
    CsvRecord ["bob"; "n/a"];
    CsvRecord ["cid"; "47"; "extra"] ].

(** The record starts with the field [userID]. *)
Definition first_field_is (userID : string) (rd : CsvRead) : Prop :=
  match rd with
  | CsvRecord (f0 :: _) => f0 = userID
  | CsvRecord [] | CsvError => False
  end.

#[global] Instance first_field_is_dec userID rd : Decision (first_field_is userID rd).
Proof. destruct rd as [[|f0 record]|]; simpl; apply _. Defined.

(** The row [importCSVToDB] inserts for a record, if it inserts one. *)
Definition userOfRead (Atoi : string → option Z) (rd : CsvRead) : option (string * Z) :=
  match rd with
  | CsvRecord (name :: field :: _) => (λ age, (name, age)) <$> Atoi field
  | CsvRecord _ | CsvError => None
  end.

(** * Properties *)

(** ** The order on dates *)

#[global] Instance date_le_refl : Reflexive date_le.
Proof. intros [y m dd]. unfold date_le; simpl. lia. Qed.

#[global] Instance date_le_trans : Transitive date_le.
Proof. intros [] [] []. unfold date_le; simpl. lia. Qed.

#[global] Instance date_le_total : Total date_le.
Proof. intros [] []. unfold date_le; simpl. lia. Qed.

#[global] Instance date_le_antisym : AntiSymm (=) date_le.
Proof.
  intros [y1 m1 d1] [y2 m2 d2]. unfold date_le; simpl. intros H1 H2.
  assert (y1 = y2 ∧ m1 = m2 ∧ d1 = d2) as (-> & -> & ->) by lia.
  reflexivity.
Qed.

#[global] Instance price_date_desc_trans : Transitive price_date_desc.
Proof. intros a b c Hab Hbc. unfold price_date_desc in *. by etrans. Qed.

#[global] Instance price_date_desc_total : Total price_date_desc.
Proof. intros a b. unfold price_date_desc. destruct (total date_le (rp_price_date a) (rp_price_date b)); auto. Qed.


(** ** Price resolver *)

Lemma head_sorted_is_first {A} (R : relation A) `{∀ x y, Decision (R x y)}
    `{!Transitive R, !Total R, !Reflexive R} (l : list A) (x : A) :
  head (merge_sort R l) = Some x → x ∈ l ∧ ∀ y, y ∈ l → R x y.
Proof.
  intros Hhd.
  pose proof (merge_sort_Permutation R l) as Hperm.
  pose proof (StronglySorted_merge_sort R l) as Hsorted.
  destruct (merge_sort R l) as [|x' rest]; simplify_eq/=.
  split.
  - rewrite <- Hperm. left.
  - intros y Hy. rewrite <- Hperm in Hy.
    apply StronglySorted_cons in Hsorted as [Hall _].
    apply elem_of_cons in Hy as [->|Hy]; [reflexivity|].
    by eapply Forall_forall in Hall.
Qed.

Lemma head_sorted_none {A} (R : relation A) `{∀ x y, Decision (R x y)} (l : list A) :
  head (merge_sort R l) = None → l = [].
Proof.
  intros Hhd. apply Permutation_nil_r. rewrite <- (merge_sort_Permutation R l).
  by destruct (merge_sort R l).
Qed.

#[global] Instance price_date_desc_refl : Reflexive price_date_desc.
Proof. intros a. unfold price_date_desc. reflexivity. Qed.

Lemma selectLatestPrice_Some db fundID date price :
  selectLatestPrice db fundID date = Some price →
  ∃ rp, rp ∈ reference_prices db ∧ price_candidate fundID date rp ∧
        rp_price rp = price ∧
        ∀ rp', rp' ∈ reference_prices db → price_candidate fundID date rp' →
               date_le (rp_price_date rp') (rp_price_date rp).
Proof.
  unfold selectLatestPrice. intros Hsel.
  apply fmap_Some in Hsel as (rp & Hhd & ->).
  apply head_sorted_is_first in Hhd as [Hin Hmax]; [|apply _..].
  apply list_elem_of_filter in Hin as [Hcand Hin].
  exists rp. repeat split; try done; try apply Hcand.
  intros rp' Hin' Hcand'. apply (Hmax rp').
  apply list_elem_of_filter. split; [apply Hcand'|done].
Qed.

Lemma selectLatestPrice_None db fundID date :
  selectLatestPrice db fundID date = None →
  ∀ rp, rp ∈ reference_prices db → ¬ price_candidate fundID date rp.
Proof.
  unfold selectLatestPrice. intros Hsel rp Hin Hcand.
  apply fmap_None in Hsel. apply head_sorted_none in Hsel.
  assert (rp ∈ filter (λ rp, rp_fund_id rp = fundID ∧ date_le (rp_price_date rp) date)
                      (reference_prices db)) as Hmem
    by (apply list_elem_of_filter; split; [apply Hcand|done]).
  rewrite Hsel in Hmem. by apply elem_of_nil in Hmem.
Qed.

(** Under the primary key the latest row is the only one of its date: the
    choice made by [LIMIT 1] never has a tie to break. *)
Lemma reference_price_unique db rp1 rp2 :
  reference_prices_pk db →
  rp1 ∈ reference_prices db → rp2 ∈ reference_prices db →
  rp_fund_id rp1 = rp_fund_id rp2 → rp_price_date rp1 = rp_price_date rp2 →
  rp1 = rp2.
Proof.
  unfold reference_prices_pk. intros Hpk Hin1 Hin2 Hf Hd.
  apply list_elem_of_lookup in Hin1 as [i Hi], Hin2 as [j Hj].
  assert (i = j) as ->.
  { eapply NoDup_lookup; [exact Hpk| |].
    - rewrite list_lookup_fmap, Hi. reflexivity.
    - rewrite list_lookup_fmap, Hj. simpl. by rewrite Hf, Hd. }
  congruence.
Qed.

(** C3 — The price lookup of both valuation handlers returns the price of a
    row of [reference_prices] for the requested fund whose [price_date] is
    at or before the as-of date and is the latest such date (no row dated
    after the as-of date is ever chosen); when the fund has no row at or
    before the as-of date the lookup yields [sql.ErrNoRows], which the
    handlers treat as "no price available"; a genuine error ([ScanErr])
    arises only from a fault of the store. *)
Theorem price_resolver_latest_at_or_before (db : Store) (fundID : Z) (date : Date) :
  match queryLatestPrice db fundID date with
  | Scanned price =>
      ∃ rp, rp ∈ reference_prices db ∧
            rp_fund_id rp = fundID ∧ rp_price rp = price ∧
            date_le (rp_price_date rp) date ∧
            ∀ rp', rp' ∈ reference_prices db → rp_fund_id rp' = fundID →
                   date_le (rp_price_date rp') date →
                   date_le (rp_price_date rp') (rp_price_date rp)
  | ErrNoRows =>
      ∀ rp, rp ∈ reference_prices db → rp_fund_id rp = fundID →
            ¬ date_le (rp_price_date rp) date
  | ScanErr => price_err (faults db) fundID = true
  end.
Proof.
  unfold queryLatestPrice.
  destruct (price_err (faults db) fundID); [done|].
  destruct (selectLatestPrice db fundID date) as [price|] eqn:Hsel.
  - apply selectLatestPrice_Some in Hsel as (rp & Hin & [Hf Hd] & Hp & Hmax).
    exists rp. repeat split; try done.
    intros rp' Hin' Hf' Hd'. by apply Hmax.
  - intros rp Hin Hf Hd.
    by apply (selectLatestPrice_None _ _ _ Hsel rp Hin).
Qed.

(** ** Position aggregator: the joined aggregate *)

Lemma sumZ_app l1 l2 : sumZ (l1 ++ l2) = sumZ l1 + sumZ l2.
Proof. unfold sumZ. induction l1 as [|x l1 IH]; simpl; lia. Qed.

Lemma group_by_elem {A K} `{EqDecision K} (key : A → K) (rows : list A) g :
  g ∈ group_by key rows ↔
  g.1 ∈ key <$> rows ∧ g.2 = filter (λ r, key r = g.1) rows.
Proof.
  unfold group_by. rewrite list_elem_of_fmap. split.
  - intros (k & -> & Hk). simpl. split; [by apply elem_of_remove_dups|done].
  - intros [Hk Hg]. exists g.1. split.
    + destruct g as [k rs]; simpl in *. by subst.
    + by apply elem_of_remove_dups.
Qed.

Lemma group_by_keys_NoDup {A K} `{EqDecision K} (key : A → K) (rows : list A) :
  NoDup ((group_by key rows).*1).
Proof.
  unfold group_by. rewrite <- list_fmap_compose.
  generalize (NoDup_remove_dups (key <$> rows)).
  generalize (remove_dups (key <$> rows)). intros ks Hks.
  induction Hks as [|k ks Hk Hks IH]; simpl; constructor; [|done].
  rewrite list_elem_of_fmap. intros (k' & -> & Hin). done.
Qed.

(** Rows of the join that stem from one trade. *)
Lemma filter_join_rows (sel : TradeHistory → Prop) `{∀ th, Decision (sel th)}
    (th : TradeHistory) (l : list ReferencePrice) :
  filter (λ row : TradeHistory * ReferencePrice, sel row.1) ((λ rp, (th, rp)) <$> l)
  = if decide (sel th) then (λ rp, (th, rp)) <$> l else [].
Proof.
  induction l as [|rp l IH]; csimpl.
  - by destruct (decide (sel th)).
  - rewrite filter_cons, IH. simpl. by destruct (decide (sel th)).
Qed.

Lemma sum_quantity_join_rows th (l : list ReferencePrice) :
  sum_quantity ((λ rp, (th, rp)) <$> l) = th_quantity th * Z.of_nat (length l).
Proof.
  unfold sum_quantity, sumZ. induction l as [|rp l IH]; csimpl; [lia|].
  rewrite IH. lia.
Qed.

Lemma sum_quantity_app g1 g2 :
  sum_quantity (g1 ++ g2) = sum_quantity g1 + sum_quantity g2.
Proof. unfold sum_quantity. by rewrite fmap_app, sumZ_app. Qed.

(** Under the primary key of [reference_prices] a trade joins with at most
    one price row. *)
Lemma pk_join_count (prices : list ReferencePrice) th :
  NoDup ((λ rp, (rp_fund_id rp, rp_price_date rp)) <$> prices) →
  length (filter (join_on th) prices)
  = if decide (Exists (join_on th) prices) then 1%nat else 0%nat.
Proof.
  induction prices as [|rp l IH]; intros Hnd.
  - simpl. destruct (decide (Exists (join_on th) [])) as [Hex|]; [|done].
    by apply Exists_nil in Hex.
  - rewrite fmap_cons in Hnd. apply NoDup_cons in Hnd as [Hfresh Hnd].
    specialize (IH Hnd). rewrite filter_cons.
    destruct (decide (join_on th rp)) as [Hj|Hj].
    + simpl. rewrite IH.
      destruct (decide (Exists (join_on th) l)) as [Hex|Hex].
      * exfalso. apply Hfresh. apply Exists_exists in Hex as (rp' & Hin & Hj').
        apply list_elem_of_fmap. exists rp'. split; [|done].
        destruct Hj as [Hf Hd], Hj' as [Hf' Hd']. congruence.
      * destruct (decide (Exists (join_on th) (rp :: l))) as [|Hno]; [done|].
        exfalso. apply Hno. by left.
    + rewrite IH.
      destruct (decide (Exists (join_on th) l)) as [Hex|Hex];
        destruct (decide (Exists (join_on th) (rp :: l))) as [Hex'|Hex']; try done.
      * exfalso. apply Hex'. by right.
      * exfalso. apply Exists_cons in Hex' as [?|?]; done.
Qed.

(** Aggregated quantity of the joined rows whose trade satisfies [sel]. *)
Lemma sum_quantity_joined (sel : TradeHistory → Prop) `{∀ th, Decision (sel th)}
    (trades : list TradeHistory) (prices : list ReferencePrice) :
  NoDup ((λ rp, (rp_fund_id rp, rp_price_date rp)) <$> prices) →
  sum_quantity
    (filter (λ row : TradeHistory * ReferencePrice, sel row.1)
            (th ← trades; (λ rp, (th, rp)) <$> filter (join_on th) prices))
  = sumZ (th_quantity <$>
          filter (λ th, sel th ∧ Exists (join_on th) prices) trades).
Proof.
  intros Hpk. induction trades as [|th trades IH]; [done|].
  rewrite bind_cons, filter_app, sum_quantity_app, IH.
  rewrite filter_join_rows, (filter_cons _ th).
  destruct (decide (sel th)) as [Hs|Hs].
  - rewrite sum_quantity_join_rows, pk_join_count by done.
    destruct (decide (Exists (join_on th) prices)) as [Hex|Hex].
    + rewrite decide_True by done. rewrite fmap_cons. unfold sumZ at 2. simpl.
      unfold sumZ. lia.
    + rewrite decide_False by tauto. lia.
  - rewrite decide_False by tauto. done.
Qed.

Lemma sum_quantity_joined_iff (P : TradeHistory * ReferencePrice → Prop)
    `{∀ row, Decision (P row)} (sel : TradeHistory → Prop) `{∀ th, Decision (sel th)}
    (trades : list TradeHistory) (prices : list ReferencePrice) :
  (∀ row, P row ↔ sel row.1) →
  NoDup ((λ rp, (rp_fund_id rp, rp_price_date rp)) <$> prices) →
  sum_quantity
    (filter P (th ← trades; (λ rp, (th, rp)) <$> filter (join_on th) prices))
  = sumZ (th_quantity <$>
          filter (λ th, sel th ∧ Exists (join_on th) prices) trades).
Proof.
  intros HP Hpk.
  rewrite (list_filter_iff P (λ row : TradeHistory * ReferencePrice, sel row.1)) by done.
  by apply sum_quantity_joined.
Qed.

(** A trade without a same-date price leaves no row in the join. *)
Lemma joined_without_unpriced db l1 th l2 :
  ¬ has_price db th →
  joined (with_trades db (l1 ++ th :: l2)) = joined (with_trades db (l1 ++ l2)).
Proof.
  intros Hno. unfold joined, with_trades; simpl.
  rewrite !bind_app, bind_cons.
  assert (filter (join_on th) (reference_prices db) = []) as ->; [|done].
  unfold has_price in Hno.
  induction (reference_prices db) as [|rp l IH]; [done|].
  rewrite filter_cons_False; [apply IH|]; intros ?; apply Hno.
  - by right.
  - by left.
Qed.

Lemma selectPositions_elem {F : Float64} db userID date r :
  r ∈ selectPositions db userID date ↔
  pr_fund_id r ∈ (λ row, th_fund_id row.1) <$> selected_rows db userID date ∧
  r = mkPositionRow (pr_fund_id r)
        (sum_quantity (fund_group db userID date (pr_fund_id r)))
        (sum_buy_cost (fund_group db userID date (pr_fund_id r))) ∧
  0 < pr_total_quantity r.
Proof.
  unfold selectPositions, fund_group, selected_rows.
  rewrite list_elem_of_filter, list_elem_of_fmap. split.
  - intros [Hpos (g & -> & Hg)]. apply group_by_elem in Hg as [Hk Hrows].
    simpl in *. rewrite <- Hrows. done.
  - intros (Hk & Hr & Hpos). split; [done|].
    eexists (pr_fund_id r, _). split; [exact Hr|].
    apply group_by_elem. done.
Qed.

Lemma selectPositionsByYear_elem {F : Float64} db userID date r :
  r ∈ selectPositionsByYear db userID date ↔
  (yr_trade_year r, yr_fund_id r)
    ∈ (λ row, (year (th_trade_date row.1), th_fund_id row.1)) <$> selected_rows db userID date ∧
  r = mkYearRow (yr_trade_year r) (yr_fund_id r)
        (sum_quantity (year_fund_group db userID date (yr_trade_year r) (yr_fund_id r)))
        (sum_buy_cost (year_fund_group db userID date (yr_trade_year r) (yr_fund_id r))) ∧
  0 < yr_total_quantity r.
Proof.
  unfold selectPositionsByYear, year_fund_group, selected_rows.
  rewrite list_elem_of_filter, list_elem_of_fmap. split.
  - intros [Hpos (g & -> & Hg)]. apply group_by_elem in Hg as [Hk Hrows].
    destruct g as [[y f] rows]. simpl in *. rewrite <- Hrows. done.
  - intros (Hk & Hr & Hpos). split; [done|].
    eexists ((yr_trade_year r, yr_fund_id r), _). split; [exact Hr|].
    apply group_by_elem. done.
Qed.

(** A group with a non-zero aggregate has a row. *)
Lemma group_key_present {K} `{EqDecision K}
    (key : TradeHistory * ReferencePrice → K) rows k :
  sum_quantity (filter (λ row, key row = k) rows) ≠ 0 → k ∈ key <$> rows.
Proof.
  induction rows as [|row rows IH]; [done|].
  rewrite filter_cons, fmap_cons. destruct (decide (key row = k)) as [<-|Hne].
  - intros _. left.
  - intros Hsum. right. by apply IH.
Qed.

(** The aggregate of a group is the sum over the priced trades in it. *)
Lemma sum_quantity_group db userID date
    (P : TradeHistory * ReferencePrice → Prop) `{∀ row, Decision (P row)}
    (sel : TradeHistory → Prop) `{∀ th, Decision (sel th)} :
  (∀ row, P row ↔ sel row.1) →
  reference_prices_pk db →
  sum_quantity (filter P (selected_rows db userID date))
  = priced_quantity db userID date sel.
Proof.
  intros HP Hpk. unfold selected_rows, priced_quantity, joined.
  rewrite list_filter_filter.
  etrans;
    [apply (sum_quantity_joined_iff _
              (λ th, sel th ∧ th_user_id th = userID ∧ date_le (th_trade_date th) date));
       [intros row; unfold where_user_date; rewrite HP; tauto|exact Hpk]|].
  f_equal. f_equal.
  apply list_filter_iff. intros th. unfold has_price. tauto.
Qed.

(** C1 — Under the primary key of [reference_prices], the [total_quantity]
    of every row returned by the position query (per fund) and by the
    year-grouped query (per year and fund) is the sum of the quantities of
    the user's trades of that fund (and year) dated at or before the as-of
    date that have a reference price on their exact trade date; a fund is
    returned exactly when that sum is positive; and a trade without a
    same-date reference price is absent from the join: taking it out of
    [trade_histories] changes no row (neither quantity nor buy cost) of
    either query. *)
Theorem total_quantity_sums_priced_trades {F : Float64} (db : Store) (userID : string) (date : Date) :
  reference_prices_pk db →
  (∀ r, r ∈ selectPositions db userID date →
        pr_total_quantity r
        = priced_quantity db userID date (λ th, th_fund_id th = pr_fund_id r)) ∧
  (∀ f, f ∈ pr_fund_id <$> selectPositions db userID date ↔
        0 < priced_quantity db userID date (λ th, th_fund_id th = f)) ∧
  (∀ r, r ∈ selectPositionsByYear db userID date →
        yr_total_quantity r
        = priced_quantity db userID date
            (λ th, (year (th_trade_date th), th_fund_id th)
                   = (yr_trade_year r, yr_fund_id r))) ∧
  (∀ l1 th l2, trade_histories db = l1 ++ th :: l2 → ¬ has_price db th →
        selectPositions db userID date
        = selectPositions (with_trades db (l1 ++ l2)) userID date ∧
        selectPositionsByYear db userID date
        = selectPositionsByYear (with_trades db (l1 ++ l2)) userID date).
Proof.
  intros Hpk. split_and!.
  - intros r Hr. apply selectPositions_elem in Hr as (_ & Hr & _).
    rewrite Hr at 1. simpl. unfold fund_group.
    by apply sum_quantity_group.
  - intros f. split.
    + intros Hf. apply list_elem_of_fmap in Hf as (r & -> & Hr).
      apply selectPositions_elem in Hr as (_ & Hr & Hpos).
      rewrite Hr in Hpos. simpl in Hpos. unfold fund_group in Hpos.
      erewrite sum_quantity_group in Hpos; [exact Hpos|done|done].
    + intros Hpos.
      erewrite <- (sum_quantity_group db userID date
                     (λ row, th_fund_id row.1 = f)) in Hpos; [|done|done].
      apply list_elem_of_fmap.
      eexists (mkPositionRow f _ _). split; [done|].
      apply selectPositions_elem. simpl. split_and!; [|done|exact Hpos].
      apply (group_key_present (λ row, th_fund_id row.1)). lia.
  - intros r Hr. apply selectPositionsByYear_elem in Hr as (_ & Hr & _).
    rewrite Hr at 1. simpl. unfold year_fund_group.
    by apply sum_quantity_group.
  - intros l1 th l2 Htrades Hno.
    assert (joined db = joined (with_trades db (l1 ++ l2))) as Hjoin.
    { replace db with (with_trades db (trade_histories db)) at 1 by (by destruct db).
      rewrite Htrades. by apply joined_without_unpriced. }
    unfold selectPositions, selectPositionsByYear. by rewrite Hjoin.
Qed.

(** Closed decidable facts about the example ledger. *)
Ltac by_evaluation := apply (bool_decide_unpack _); vm_compute; reflexivity.

Lemma total_quantity_sums_priced_trades_witness :
  reference_prices_pk demo_db ∧
  ∀ r, r ∈ selectPositions (F:=binary64) demo_db "u1" (ymd 2024 6 1) →
       pr_total_quantity r
       = priced_quantity demo_db "u1" (ymd 2024 6 1) (λ th, th_fund_id th = pr_fund_id r).
Proof.
  assert (Hpk : reference_prices_pk demo_db) by by_evaluation.
  split; [exact Hpk|].
  exact (proj1 (total_quantity_sums_priced_trades demo_db "u1" (ymd 2024 6 1) Hpk)).
Defined.

(** ** What the handlers read from a query *)

Lemma dbQuery_sublist {A} db (result rows : list A) :
  dbQuery db result = Some rows → rows `prefix_of` result.
Proof.
  unfold dbQuery. destruct (query_err (faults db)); [done|].
  destruct (rows_err (faults db)) as [n|]; intros [= <-]; [apply prefix_take|done].
Qed.

Lemma dbQuery_elem {A} db (result rows : list A) r :
  dbQuery db result = Some rows → r ∈ rows → r ∈ result.
Proof.
  intros Hq Hr. apply dbQuery_sublist in Hq as [rest ->].
  apply elem_of_app. by left.
Qed.

Lemma collectPositions_lookup_from {F : Float64} (m : gmap Z Position) rows f pos :
  foldl (λ positions r, <[pr_fund_id r := toPosition r]> positions) m rows !! f = Some pos →
  m !! f = Some pos ∨ ∃ r, r ∈ rows ∧ pr_fund_id r = f ∧ pos = toPosition r.
Proof.
  revert m. induction rows as [|r rows IH]; intros m; simpl; [by left|].
  intros Hl. apply IH in Hl as [Hl|(r' & Hin & Hf & Hp)].
  - destruct (decide (pr_fund_id r = f)) as [<-|Hne].
    + rewrite lookup_insert_eq in Hl. right. exists r. split; [left|]. naive_solver.
    + rewrite lookup_insert_ne in Hl by done. by left.
  - right. exists r'. split; [by right|done].
Qed.

Lemma collectPositions_lookup {F : Float64} rows f pos :
  collectPositions rows !! f = Some pos →
  ∃ r, r ∈ rows ∧ pr_fund_id r = f ∧ pos = toPosition r.
Proof.
  intros Hl. apply collectPositions_lookup_from in Hl as [Hl|Hl]; [|done].
  by rewrite lookup_empty in Hl.
Qed.

(** ** Funds without a positive net quantity *)

(** C7 — Every row of the position query and of the year-grouped query has a
    strictly positive [total_quantity]; a fund (a (year, fund) group) whose
    aggregated quantity is not strictly positive is in no row of the query
    result, hence in no entry of the [positions] map the single-date loop
    ranges over and in no row the year loop consumes, whatever the store
    and the request. *)
Theorem nonpositive_quantity_never_valued {F : Float64} (db : Store) (userID : string) (date : Date) :
  (∀ r, r ∈ selectPositions db userID date → 0 < pr_total_quantity r) ∧
  (∀ f rows, sum_quantity (fund_group db userID date f) ≤ 0 →
      (f ∉ pr_fund_id <$> selectPositions db userID date) ∧
      (dbQuery db (selectPositions db userID date) = Some rows →
       collectPositions rows !! f = None)) ∧
  (∀ r, r ∈ selectPositionsByYear db userID date → 0 < yr_total_quantity r) ∧
  (∀ y f rows, sum_quantity (year_fund_group db userID date y f) ≤ 0 →
      ((y, f) ∉ (λ r, (yr_trade_year r, yr_fund_id r))
                  <$> selectPositionsByYear db userID date) ∧
      (dbQuery db (selectPositionsByYear db userID date) = Some rows →
       ∀ r, r ∈ rows → (yr_trade_year r, yr_fund_id r) ≠ (y, f))).
Proof.
  assert (Hfund : ∀ f, sum_quantity (fund_group db userID date f) ≤ 0 →
                       ∀ r, r ∈ selectPositions db userID date → pr_fund_id r ≠ f).
  { intros f Hle r Hr <-. apply selectPositions_elem in Hr as (_ & Hr & Hpos).
    rewrite Hr in Hpos. simpl in Hpos. lia. }
  assert (Hyear : ∀ y f, sum_quantity (year_fund_group db userID date y f) ≤ 0 →
                         ∀ r, r ∈ selectPositionsByYear db userID date →
                              (yr_trade_year r, yr_fund_id r) ≠ (y, f)).
  { intros y f Hle r Hr [= <- <-]. apply selectPositionsByYear_elem in Hr as (_ & Hr & Hpos).
    rewrite Hr in Hpos. simpl in Hpos. lia. }
  split_and!.
  - intros r Hr. by apply selectPositions_elem in Hr as (_ & _ & Hpos).
  - intros f rows Hle. split.
    + intros Hin. apply list_elem_of_fmap in Hin as (r & -> & Hr). by eapply Hfund.
    + intros Hq. destruct (collectPositions rows !! f) as [pos|] eqn:Hl; [|done].
      apply collectPositions_lookup in Hl as (r & Hr & Hf & _).
      exfalso. eapply Hfund; [exact Hle| |exact Hf]. by eapply dbQuery_elem.
  - intros r Hr. by apply selectPositionsByYear_elem in Hr as (_ & _ & Hpos).
  - intros y f rows Hle. split.
    + intros Hin. apply list_elem_of_fmap in Hin as (r & Heq & Hr).
      by eapply Hyear.
    + intros Hq r Hr. eapply Hyear; [exact Hle|]. by eapply dbQuery_elem.
Qed.

(** ** Trade count *)

Lemma selectCount_raw db userID :
  selectCount db userID = raw_row_count userID (trade_histories db).
Proof.
  unfold selectCount. induction (trade_histories db) as [|th l IH]; [done|].
  rewrite filter_cons. simpl raw_row_count.
  destruct (decide (th_user_id th = userID)); simpl length; lia.
Qed.

(** C8 — [GET /{user_id}/trades] answers with the number of rows of
    [trade_histories] whose [user_id] is the requested one (an internal
    server error when the store fails). The handler takes no date, and the
    count is not deduplicated: one more row of that user raises it by
    exactly one whatever its date or fund — also when the user already has
    a trade on that date — and a row of another user leaves it unchanged. *)
Theorem trade_count_is_raw_row_count (db : Store) (userID : string) :
  getTradesCountHandler db userID
  = (if query_err (faults db) then HttpError StatusInternalServerError
     else HttpOK (TradesResponse.mk (raw_row_count userID (trade_histories db)))) ∧
  (∀ l1 l2 th, trade_histories db = l1 ++ l2 →
     selectCount (with_trades db (l1 ++ th :: l2)) userID
     = selectCount db userID + (if decide (th_user_id th = userID) then 1 else 0)).
Proof.
  split.
  - unfold getTradesCountHandler, queryCount.
    destruct (query_err (faults db)); [done|]. by rewrite selectCount_raw.
  - intros l1 l2 th Hdb. unfold selectCount, with_trades; simpl. rewrite Hdb.
    rewrite !filter_app, filter_cons, !length_app.
    destruct (decide (th_user_id th = userID)); simpl length; lia.
Qed.
(** ** Single-date valuation: the two totals *)

(** The accumulators of the loop hold the sums, in the order of the visit,
    of the values and of the buy costs of the positions with a resolved
    price. *)
Lemma valuationLoop_from {F : Float64} db targetDate visited acc :
  foldl (valuePosition db targetDate) acc visited
  = (foldl f64_add acc.1 (fst <$> omap (contribution db targetDate) visited),
     foldl f64_add acc.2 (snd <$> omap (contribution db targetDate) visited)).
Proof.
  revert acc. induction visited as [|pos visited IH]; intros acc; csimpl.
  - by destruct acc.
  - rewrite IH. unfold valuePosition, contribution, resolved, value_at.
    by destruct (scanLatestPrice db (FundID pos) targetDate).
Qed.

Lemma valuationLoop_sums {F : Float64} db targetDate visited :
  valuationLoop db targetDate visited
  = (value_sum db targetDate visited, cost_sum db targetDate visited).
Proof. unfold valuationLoop. by rewrite valuationLoop_from. Qed.

(** The [positions] map holds one entry per row read, when the rows have
    pairwise distinct funds. *)
Lemma collectPositions_from_Permutation {F : Float64} (m : gmap Z Position) rows :
  NoDup (pr_fund_id <$> rows) →
  (∀ r, r ∈ rows → m !! pr_fund_id r = None) →
  (map_to_list
     (foldl (λ positions r, <[pr_fund_id r := toPosition r]> positions) m rows)).*2
  ≡ₚ (map_to_list m).*2 ++ (toPosition <$> rows).
Proof.
  revert m. induction rows as [|r rows IH]; intros m Hnd Hfresh; csimpl.
  - by rewrite app_nil_r.
  - apply NoDup_cons in Hnd as [Hr Hnd]. rewrite IH; [|done|].
    + rewrite map_to_list_insert by (apply Hfresh; left). csimpl.
      by rewrite Permutation_middle.
    + intros r' Hr'. rewrite lookup_insert_ne.
      * apply Hfresh. by right.
      * intros Heq. apply Hr. rewrite Heq. by apply list_elem_of_fmap_2.
Qed.

Lemma collectPositions_Permutation {F : Float64} rows :
  NoDup (pr_fund_id <$> rows) →
  (map_to_list (collectPositions rows)).*2 ≡ₚ toPosition <$> rows.
Proof.
  intros Hnd.
  etrans; [apply (collectPositions_from_Permutation ∅ rows Hnd)|].
  - intros r _. apply lookup_empty.
  - by rewrite map_to_list_empty.
Qed.

Lemma selectPositions_NoDup {F : Float64} db userID date :
  NoDup (pr_fund_id <$> selectPositions db userID date).
Proof.
  unfold selectPositions.
  eapply sublist_NoDup; [|by apply fmap_sublist, sublist_filter].
  rewrite <- list_fmap_compose.
  apply (group_by_keys_NoDup (λ row : TradeHistory * ReferencePrice, th_fund_id row.1)).
Qed.

Lemma dbQuery_positions_NoDup {F : Float64} db userID date rows :
  dbQuery db (selectPositions db userID date) = Some rows →
  NoDup (pr_fund_id <$> rows).
Proof.
  intros Hq. apply dbQuery_sublist in Hq as [rest Hq].
  pose proof (selectPositions_NoDup db userID date) as Hnd.
  rewrite Hq, fmap_app in Hnd. by apply NoDup_app in Hnd as (Hnd & _ & _).
Qed.

Lemma range_stored_ok : range_ok range_stored.
Proof. intros V m. reflexivity. Qed.

Lemma range_reversed_ok : range_ok range_reversed.
Proof. intros V m. unfold range_reversed. apply reverse_Permutation. Qed.

Lemma getAssetsHandler_served {F : Float64} range db today userID dateParam
    targetDate rows :
  target_date today dateParam = Some targetDate →
  dbQuery db (selectPositions db userID targetDate) = Some rows →
  getAssetsHandler range db today userID dateParam
  = assetsResponse range db targetDate rows.
Proof.
  intros Hd Hq. unfold getAssetsHandler.
  destruct dateParam; simplify_eq/=; by rewrite Hq.
Qed.

(** A request that is answered with a body was served for a target date and
    from the rows read from the position query. *)
Lemma getAssetsHandler_answered {F : Float64} range db today userID dateParam body :
  getAssetsHandler range db today userID dateParam = HttpOK body →
  ∃ targetDate rows,
    target_date today dateParam = Some targetDate ∧
    dbQuery db (selectPositions db userID targetDate) = Some rows ∧
    assetsResponse range db targetDate rows = HttpOK body.
Proof.
  intros Hresp.
  assert (∃ targetDate, target_date today dateParam = Some targetDate)
    as [targetDate Hd].
  { destruct dateParam; simpl; eauto. by simpl in Hresp. }
  destruct (dbQuery db (selectPositions db userID targetDate)) as [rows|] eqn:Hq.
  - exists targetDate, rows. split_and!; [done..|].
    by rewrite <- (getAssetsHandler_served _ _ _ _ _ _ _ Hd Hq).
  - unfold getAssetsHandler in Hresp.
    destruct dateParam; simplify_eq/=; by rewrite Hq in Hresp.
Qed.

(** In every number system the body of a single-date valuation is obtained
    by adding up, in the order in which the map is visited, the values and
    the buy costs of the positions read that have a resolved price, and by
    flooring once the value total and once the difference of the two
    totals. The positions visited are those of the rows read, in some
    order. *)
Lemma valuation_sums_then_floors_once {F : Float64} range db today userID
    dateParam body :
  range_ok range →
  getAssetsHandler range db today userID dateParam = HttpOK body →
  ∃ rows visited,
    target_date today dateParam = Some (AssetData.Date body) ∧
    dbQuery db (selectPositions db userID (AssetData.Date body)) = Some rows ∧
    visited ≡ₚ toPosition <$> rows ∧
    AssetData.CurrentValue body
    = f64_floor (value_sum db (AssetData.Date body) visited) ∧
    AssetData.CurrentPL body
    = f64_floor (value_sum db (AssetData.Date body) visited
                 - cost_sum db (AssetData.Date body) visited)%f64.
Proof.
  intros Hrange Hresp.
  apply getAssetsHandler_answered in Hresp as (targetDate & rows & Hd & Hq & Hresp).
  unfold assetsResponse in Hresp. rewrite valuationLoop_sums in Hresp.
  injection Hresp as <-. cbn [AssetData.Date AssetData.CurrentValue AssetData.CurrentPL].
  exists rows, ((range Position (collectPositions rows)).*2).
  split_and!; [done|done| |done|done].
  rewrite (Hrange _ (collectPositions rows)).
  apply collectPositions_Permutation. by eapply dbQuery_positions_NoDup.
Qed.

(** ** Single-date valuation in rational arithmetic *)

Lemma sumQ_Permutation (l1 l2 : list Q) : l1 ≡ₚ l2 → (sumQ l1 == sumQ l2)%Q.
Proof.
  unfold sumQ. induction 1 as [|x l1 l2 _ IH|x y l|l1 l2 l3 _ IH1 _ IH2]; simpl.
  - reflexivity.
  - by rewrite IH.
  - ring.
  - by rewrite IH1.
Qed.

(** Without rounding the order of the additions does not matter. *)
Lemma foldl_Qplus (l : list Q) (acc : Q) : (foldl Qplus acc l == acc + sumQ l)%Q.
Proof.
  revert acc. unfold sumQ. induction l as [|x l IH]; intros acc; simpl.
  - ring.
  - rewrite IH. ring.
Qed.

Lemma sum_double_exact (l : list Q) : (sum_double (F:=rational) l == sumQ l)%Q.
Proof.
  unfold sum_double. change (foldl Qplus 0 l == sumQ l)%Q.
  rewrite foldl_Qplus. ring.
Qed.

Lemma exact_value_Permutation db targetDate l1 l2 :
  l1 ≡ₚ l2 → (exact_value db targetDate l1 == exact_value db targetDate l2)%Q.
Proof. intros Hp. unfold exact_value. apply sumQ_Permutation. by rewrite Hp. Qed.

Lemma exact_cost_Permutation db targetDate l1 l2 :
  l1 ≡ₚ l2 → (exact_cost db targetDate l1 == exact_cost db targetDate l2)%Q.
Proof. intros Hp. unfold exact_cost. apply sumQ_Permutation. by rewrite Hp. Qed.

Lemma exact_floor (x y : Q) : (x == y)%Q → @f64_floor rational x = Qfloor y.
Proof. intros Heq. by apply Qfloor_comp. Qed.

Lemma exact_floor_sub (x1 y1 x2 y2 : Q) :
  (x1 == x2)%Q → (y1 == y2)%Q →
  @f64_floor rational (@f64_sub rational x1 y1) = Qfloor (x2 - y2).
Proof. intros H1 H2. apply Qfloor_comp. change (x1 - y1 == x2 - y2)%Q. by rewrite H1, H2. Qed.

Lemma assetsResponse_exact range db targetDate rows held :
  range_ok range →
  held ≡ₚ (map_to_list (collectPositions rows)).*2 →
  assetsResponse (F:=rational) range db targetDate rows
  = HttpOK (AssetData.mk targetDate
              (Qfloor (exact_value db targetDate held))
              (Qfloor (exact_value db targetDate held - exact_cost db targetDate held))).
Proof.
  intros Hrange Hheld. unfold assetsResponse. rewrite valuationLoop_sums.
  assert ((range Position (collectPositions rows)).*2 ≡ₚ held) as Hp
    by (by rewrite Hheld, (Hrange _ (collectPositions rows))).
  unfold assetData. cbn [fst snd]. do 2 f_equal.
  - apply exact_floor. unfold value_sum. rewrite sum_double_exact.
    by apply exact_value_Permutation.
  - apply exact_floor_sub.
    + unfold value_sum. rewrite sum_double_exact. by apply exact_value_Permutation.
    + unfold cost_sum. rewrite sum_double_exact. by apply exact_cost_Permutation.
Qed.

(** The body of a successful single-date request in rational arithmetic,
    for any iteration order: the floor of the value of the positions read
    and the floor of that value minus their buy cost. *)
Lemma getAssetsHandler_exact_body range db today userID dateParam body :
  range_ok range →
  getAssetsHandler (F:=rational) range db today userID dateParam = HttpOK body →
  ∃ targetDate rows,
    target_date today dateParam = Some targetDate ∧
    dbQuery db (selectPositions db userID targetDate) = Some rows ∧
    body = AssetData.mk targetDate
             (Qfloor (exact_value db targetDate (toPosition <$> rows)))
             (Qfloor (exact_value db targetDate (toPosition <$> rows)
                      - exact_cost db targetDate (toPosition <$> rows))).
Proof.
  intros Hrange Hresp.
  apply getAssetsHandler_answered in Hresp as (targetDate & rows & Hd & Hq & Hresp).
  rewrite (assetsResponse_exact range db targetDate rows (toPosition <$> rows))
    in Hresp; [|done|].
  - injection Hresp as <-. by exists targetDate, rows.
  - symmetry. apply collectPositions_Permutation.
    by eapply dbQuery_positions_NoDup.
Qed.

(** In rational arithmetic the answer does not depend on the order in which
    the map is visited. *)
Lemma exact_valuation_independent_of_map_order (range1 range2 : RangeOracle)
    (db : Store) (today : Date) (userID : string) (dateParam : DateParam) :
  range_ok range1 → range_ok range2 →
  getAssetsHandler (F:=rational) range1 db today userID dateParam
  = getAssetsHandler (F:=rational) range2 db today userID dateParam.
Proof.
  intros H1 H2. unfold getAssetsHandler.
  assert (∀ targetDate rows,
            assetsResponse (F:=rational) range1 db targetDate rows
            = assetsResponse (F:=rational) range2 db targetDate rows) as Heq.
  { intros targetDate rows.
    by rewrite (assetsResponse_exact range1 _ _ _ _ H1 (reflexivity _)),
               (assetsResponse_exact range2 _ _ _ _ H2 (reflexivity _)). }
  destruct dateParam as [| |parsedDate]; [|done|].
  - destruct (dbQuery db (selectPositions db userID today)); [apply Heq|done].
  - destruct (dbQuery db (selectPositions db userID parsedDate)); [apply Heq|done].
Qed.

(** Flooring each fund before summing would differ: two funds at -0.3 each
    give floor(-0.6) = -1, not -2. *)
Example floor_of_sum_is_not_sum_of_floors :
  Qfloor ((-3 # 10) + (-3 # 10)) = -1 ∧ Qfloor (-3 # 10) + Qfloor (-3 # 10) = -2.
Proof. split; reflexivity. Qed.

(** The floor rounds toward negative infinity, in double precision too: a
    profit/loss of -0.3 gives -1. *)
Example floor_rounds_down :
  AssetData.CurrentPL
    (assetData (F:=binary64) (ymd 2024 1 10) (f64_zero, f64_of_decimal (3 # 10))) = -1 ∧
  AssetData.CurrentPL
    (assetData (F:=rational) (ymd 2024 1 10) (f64_zero, f64_of_decimal (3 # 10))) = -1.
Proof. split; vm_compute; reflexivity. Qed.

(** C2 fails on the code — User [u1] bought 50000 units of fund 1 at 4.60 and
    asks for the valuation of the purchase day. The sum of the exact
    contributions is 4.60 * 50000 / 10000 = 23 and the buy cost is 23: the
    claim gives [current_value] = 23 and [current_pl] = 0, which is what the
    handler computes in rational arithmetic. The handler computes in double
    precision: 4.6 is not a double, the product is rounded below 230000 and
    the quotient below 23, while the store divides the exact product 230000
    and returns a buy cost of 23. The handler answers [current_value] = 22
    and [current_pl] = -1. *)
Theorem rounded_value_floors_below_exact_value :
  getAssetsHandler (F:=binary64) range_stored rounding_db (ymd 2024 1 10) "u1" DateAbsent
  = HttpOK (AssetData.mk (ymd 2024 1 10) 22 (-1)) ∧
  getAssetsHandler (F:=rational) range_stored rounding_db (ymd 2024 1 10) "u1" DateAbsent
  = HttpOK (AssetData.mk (ymd 2024 1 10) 23 0) ∧
  Qfloor ((460 # 100) * inject_Z 50000 / inject_Z 10000) = 23 ∧
  pr_total_buy_cost <$> selectPositions (F:=binary64) rounding_db "u1" (ymd 2024 1 10)
  = [f64_of_int 23].
Proof. split_and!; vm_compute; reflexivity. Qed.

(** C9 fails on the code — User [u1] holds three funds worth 0.1, 0.2 and 0.7.
    Visited in the order 0.7, 0.2, 0.1 the double-precision total is
    0.9999999999999999 and the answer is [current_value] = 0; visited in the
    reverse order the total is 1 and the answer is [current_value] = 1. Both
    orders are orders in which [range] may visit the map. *)
Theorem valuation_depends_on_map_order :
  range_ok range_stored ∧ range_ok range_reversed ∧
  FundID <$> (snd <$> range_stored _
                (collectPositions
                   (selectPositions (F:=binary64) three_funds_db "u1" (ymd 2024 1 10))))
  = [3; 2; 1] ∧
  getAssetsHandler (F:=binary64) range_stored three_funds_db (ymd 2024 1 10) "u1"
    DateAbsent
  = HttpOK (AssetData.mk (ymd 2024 1 10) 0 0) ∧
  getAssetsHandler (F:=binary64) range_reversed three_funds_db (ymd 2024 1 10) "u1"
    DateAbsent
  = HttpOK (AssetData.mk (ymd 2024 1 10) 1 0).
Proof.
  split_and!; [exact range_stored_ok|exact range_reversed_ok|
               vm_compute; reflexivity..].
Qed.

(** ** Funds without a current price *)

Lemma valuationLoop_skip {F : Float64} db targetDate f visited acc :
  (∀ pos acc', FundID pos = f → valuePosition db targetDate acc' pos = acc') →
  foldl (valuePosition db targetDate) acc visited
  = foldl (valuePosition db targetDate) acc (filter (λ pos, FundID pos ≠ f) visited).
Proof.
  intros Hskip. revert acc.
  induction visited as [|pos visited IH]; intros acc; [done|].
  rewrite filter_cons. destruct (decide (FundID pos ≠ f)) as [Hne|Heq]; simpl.
  - apply IH.
  - rewrite Hskip; [apply IH|]. by destruct (decide (FundID pos = f)).
Qed.

(** C4 — In single-date valuation a position whose price lookup finds no
    row leaves both [totalCurrentValue] and [totalBuyAmount] as they were,
    and the request is answered with status 200 by the same body as if the
    fund were not among the positions: value and buy cost are summed over
    the same funds. *)
Theorem unpriced_fund_skipped_in_both_totals {F : Float64} (range : RangeOracle)
    (db : Store) (targetDate : Date) (rows : list PositionRow) (f : Z) :
  queryLatestPrice db f targetDate = ErrNoRows →
  (∀ pos acc, FundID pos = f → valuePosition db targetDate acc pos = acc) ∧
  assetsResponse range db targetDate rows
  = HttpOK (assetData targetDate
              (valuationLoop db targetDate
                 (filter (λ pos, FundID pos ≠ f)
                         (snd <$> range _ (collectPositions rows))))).
Proof.
  intros Hno.
  assert (∀ pos acc, FundID pos = f → valuePosition db targetDate acc pos = acc)
    as Hskip.
  { intros pos acc <-. unfold valuePosition, scanLatestPrice. by rewrite Hno. }
  split; [exact Hskip|].
  unfold assetsResponse, valuationLoop. do 2 f_equal.
  by apply valuationLoop_skip.
Qed.

(** Fund 2 has no reference price at all in the example ledger. *)
Lemma unpriced_fund_skipped_in_both_totals_witness :
  queryLatestPrice demo_db 2 (ymd 2024 6 1) = ErrNoRows ∧
  assetsResponse (F:=binary64) range_stored demo_db (ymd 2024 6 1)
    [mkPositionRow 1 30000 (f64_of_int 290); mkPositionRow 2 5000 (f64_of_int 50)]
  = HttpOK (assetData (F:=binary64) (ymd 2024 6 1)
              (valuationLoop demo_db (ymd 2024 6 1)
                 [mkPosition 1 30000 (f64_of_int 290)])).
Proof.
  assert (Hno : queryLatestPrice demo_db 2 (ymd 2024 6 1) = ErrNoRows)
    by (vm_compute; reflexivity).
  split; [exact Hno|].
  exact (proj2 (unpriced_fund_skipped_in_both_totals (F:=binary64) range_stored
                  demo_db (ymd 2024 6 1)
                  [mkPositionRow 1 30000 (f64_of_int 290);
                   mkPositionRow 2 5000 (f64_of_int 50)] 2 Hno)).
Defined.

(** ** Year-bucketed valuation: the loop invariant *)

Lemma sum_double_snoc {F : Float64} (l : list float64) (x : float64) :
  sum_double (l ++ [x]) = (sum_double l + x)%f64.
Proof. unfold sum_double. by rewrite foldl_app. Qed.

Lemma cachedPrice_sound {F : Float64} db currentDate cache f :
  cache_sound db currentDate cache →
  match cachedPrice db currentDate cache f with
  | None => resolved db currentDate f = None
  | Some (p, cache') =>
      resolved db currentDate f = Some p ∧ cache_sound db currentDate cache'
  end.
Proof.
  intros Hc. unfold cachedPrice, resolved.
  destruct (cache !! f) as [p|] eqn:Hl.
  - by rewrite (Hc _ _ Hl).
  - destruct (scanLatestPrice db f currentDate) as [p| |] eqn:Hq; try done.
    split; [done|]. intros f' p' Hl'.
    destruct (decide (f = f')) as [<-|Hne].
    + rewrite lookup_insert_eq in Hl'. by simplify_eq.
    + rewrite lookup_insert_ne in Hl' by done. by apply Hc.
Qed.

Lemma cohort_snoc {F : Float64} db currentDate rows row y :
  cohort db currentDate (rows ++ [row]) y
  = cohort db currentDate rows y ++
    match year_contribution db currentDate row with
    | Some c => if decide (c.1 = y) then [c.2] else []
    | None => []
    end.
Proof.
  unfold cohort. rewrite omap_app, filter_app, fmap_app. f_equal.
  csimpl. destruct (year_contribution db currentDate row) as [c|]; [|done].
  rewrite filter_cons. by destruct (decide (c.1 = y)).
Qed.

Lemma yearStep_invariant {F : Float64} db currentDate st rows row :
  cache_sound db currentDate (priceCache st) →
  summary_of_cohorts db currentDate (yearlySummary st) rows →
  cache_sound db currentDate (priceCache (yearStep db currentDate st row)) ∧
  summary_of_cohorts db currentDate (yearlySummary (yearStep db currentDate st row))
                     (rows ++ [row]).
Proof.
  intros Hc Hs. unfold yearStep.
  pose proof (cachedPrice_sound db currentDate (priceCache st) (yr_fund_id row) Hc) as Hp.
  destruct (cachedPrice db currentDate (priceCache st) (yr_fund_id row))
    as [[p cache']|].
  - destruct Hp as [Hres Hc']. simpl. split; [done|].
    intros y. specialize (Hs y). unfold cohort_value, cohort_cost in *.
    rewrite cohort_snoc. unfold year_contribution. rewrite Hres. simpl.
    destruct (decide (yr_trade_year row = y)) as [<-|Hne].
    + rewrite lookup_insert_eq.
      split; [intros Hnil; apply app_eq_nil in Hnil as [_ Hnil]; discriminate|].
      rewrite !fmap_app. csimpl. rewrite !sum_double_snoc.
      destruct (yearlySummary st !! yr_trade_year row) as [data|]; simpl.
      * destruct Hs as (_ & -> & ->). split; reflexivity.
      * rewrite Hs. split; reflexivity.
    + rewrite lookup_insert_ne by done. by rewrite app_nil_r.
  - split; [done|]. intros y. specialize (Hs y).
    unfold cohort_value, cohort_cost in *.
    rewrite cohort_snoc. unfold year_contribution. rewrite Hp. by rewrite app_nil_r.
Qed.

Lemma yearLoop_invariant {F : Float64} db currentDate rows :
  cache_sound db currentDate (priceCache (yearLoop db currentDate rows)) ∧
  summary_of_cohorts db currentDate (yearlySummary (yearLoop db currentDate rows)) rows.
Proof.
  unfold yearLoop. induction rows as [|row rows IH] using rev_ind.
  - simpl. split.
    + intros f p Hl. by rewrite lookup_empty in Hl.
    + intros y. by rewrite lookup_empty.
  - rewrite foldl_app. simpl. destruct IH as [Hc Hs].
    by apply yearStep_invariant.
Qed.

(** ** Year-bucketed valuation: the response *)

Lemma year_not_less_trans : Transitive (λ a b : YearlyAsset.t, ¬ year_less b a).
Proof. intros a b c. unfold year_less. lia. Qed.

Lemma year_not_less_total : Total (λ a b : YearlyAsset.t, ¬ year_less b a).
Proof. intros a b. unfold year_less. lia. Qed.

Lemma sortSlice_Permutation s : sortSlice year_less s ≡ₚ s.
Proof. unfold sortSlice. apply merge_sort_Permutation. Qed.

Lemma sortSlice_sorted s :
  StronglySorted (λ a b, ¬ year_less b a) (sortSlice year_less s).
Proof.
  unfold sortSlice.
  apply (@StronglySorted_merge_sort _ (λ a b : YearlyAsset.t, ¬ year_less b a) _
           year_not_less_trans year_not_less_total).
Qed.

(** A list sorted by a non-strict order on keys that are pairwise distinct
    is strictly sorted. *)
Lemma strictly_sorted_of_NoDup (l : list YearlyAsset.t) :
  StronglySorted (λ a b, ¬ year_less b a) l →
  NoDup (YearlyAsset.Year <$> l) →
  StronglySorted (λ a b, YearlyAsset.Year a > YearlyAsset.Year b) l.
Proof.
  induction 1 as [|a l Hs IH Hall]; intros Hnd; [constructor|].
  rewrite fmap_cons in Hnd. apply NoDup_cons in Hnd as [Ha Hnd].
  constructor; [by apply IH|].
  apply Forall_forall. intros b Hb.
  assert (YearlyAsset.Year b ≠ YearlyAsset.Year a).
  { intros Heq. apply Ha. rewrite <- Heq. by apply list_elem_of_fmap_2. }
  eapply Forall_forall in Hall; [|exact Hb]. unfold year_less in Hall. lia.
Qed.

Lemma yearlyAssets_Permutation {F : Float64} range db currentDate rows :
  range_ok range →
  yearlyAssets range db currentDate rows
  ≡ₚ yearlyAsset <$> map_to_list (yearlySummary (yearLoop db currentDate rows)).
Proof.
  intros Hrange. unfold yearlyAssets.
  by rewrite sortSlice_Permutation, (Hrange _ _).
Qed.

Lemma yearlyAssets_elem {F : Float64} range db currentDate rows a :
  range_ok range →
  a ∈ yearlyAssets range db currentDate rows ↔
  ∃ data, yearlySummary (yearLoop db currentDate rows) !! YearlyAsset.Year a = Some data ∧
          a = yearlyAsset (YearlyAsset.Year a, data).
Proof.
  intros Hrange. rewrite (yearlyAssets_Permutation _ _ _ _ Hrange).
  rewrite list_elem_of_fmap. split.
  - intros ([y data] & -> & Hin). apply elem_of_map_to_list in Hin.
    exists data. done.
  - intros (data & Hl & Ha). exists (YearlyAsset.Year a, data).
    split; [done|]. by apply elem_of_map_to_list.
Qed.

Lemma yearlyAssets_years {F : Float64} range db currentDate rows y :
  range_ok range →
  y ∈ YearlyAsset.Year <$> yearlyAssets range db currentDate rows ↔
  cohort db currentDate rows y ≠ [].
Proof.
  intros Hrange.
  destruct (yearLoop_invariant db currentDate rows) as [_ Hs]. specialize (Hs y).
  rewrite list_elem_of_fmap. split.
  - intros (a & -> & Ha). apply yearlyAssets_elem in Ha as (data & Hl & _); [|done].
    rewrite Hl in Hs. apply Hs.
  - intros Hne.
    destruct (yearlySummary (yearLoop db currentDate rows) !! y) as [data|] eqn:Hl;
      [|done].
    exists (yearlyAsset (y, data)). split; [done|].
    apply yearlyAssets_elem; [done|]. by exists data.
Qed.

Lemma selectPositionsByYear_NoDup {F : Float64} db userID date :
  NoDup ((λ r, (yr_trade_year r, yr_fund_id r)) <$> selectPositionsByYear db userID date).
Proof.
  unfold selectPositionsByYear.
  eapply sublist_NoDup; [|by apply fmap_sublist, sublist_filter].
  rewrite <- list_fmap_compose.
  erewrite list_fmap_ext; [apply group_by_keys_NoDup|].
  intros i [[y f] g] _. done.
Qed.

(** The cohort of a year, spelled out: the rows of that year whose fund has
    a resolved price, in the order of the rows, each with the value of its
    quantity at that price and with its buy cost. *)
Lemma cohort_rows {F : Float64} db currentDate rows y :
  cohort db currentDate rows y
  = omap (λ r, (λ price, (value_at price (yr_total_quantity r), yr_total_buy_cost r))
                 <$> resolved db currentDate (yr_fund_id r))
         (filter (λ r, yr_trade_year r = y) rows).
Proof.
  unfold cohort. induction rows as [|row rows IH]; [done|].
  rewrite (filter_cons _ row). csimpl. unfold year_contribution at 1.
  destruct (decide (yr_trade_year row = y)) as [Hy|Hy]; csimpl;
    destruct (resolved db currentDate (yr_fund_id row)) as [p|]; csimpl; try done.
  - rewrite filter_cons, decide_True by done. csimpl. by rewrite IH.
  - by rewrite filter_cons, decide_False.
Qed.

Lemma cohort_nonempty {F : Float64} db currentDate rows y :
  cohort db currentDate rows y ≠ [] ↔
  ∃ r, r ∈ rows ∧ yr_trade_year r = y ∧ resolved db currentDate (yr_fund_id r) ≠ None.
Proof.
  rewrite cohort_rows. split.
  - intros Hne.
    destruct (omap _ (filter (λ r, yr_trade_year r = y) rows)) as [|c l] eqn:Hc; [done|].
    assert (c ∈ c :: l) as Hin by left. rewrite <- Hc in Hin.
    apply list_elem_of_omap in Hin as (r & Hr & Hres).
    apply list_elem_of_filter in Hr as [Hy Hr]. exists r. split_and!; [done..|].
    intros Hnone. by rewrite Hnone in Hres.
  - intros (r & Hr & Hy & Hres) Hnil.
    destruct (resolved db currentDate (yr_fund_id r)) as [p|] eqn:Hp; [|done].
    assert ((value_at p (yr_total_quantity r), yr_total_buy_cost r)
            ∈ omap (λ r, (λ price, (value_at price (yr_total_quantity r),
                                    yr_total_buy_cost r))
                           <$> resolved db currentDate (yr_fund_id r))
                   (filter (λ r, yr_trade_year r = y) rows)) as Hin.
    { apply list_elem_of_omap. exists r. split.
      - by apply list_elem_of_filter.
      - by rewrite Hp. }
    rewrite Hnil in Hin. by apply elem_of_nil in Hin.
Qed.

(** C6 — In the body of [GET /{user_id}/assets/byYear] the entries are in
    strictly descending order of [year]; a year is listed exactly when one
    of the (year, fund) rows read for it has a fund with a current price;
    and the entry of a year is computed from the rows of that purchase year
    alone: [current_value] is the floor of the sum, over that year's rows
    with a resolved price and in the order of the rows, of the row's
    quantity valued at the fund's current price (the same price in every
    year), and [current_pl] the floor of that sum minus the sum of the same
    rows' buy costs. The rows are per (year, fund): a fund bought in two
    years is two rows, one in each year's sum. This holds in every number
    system, hence in double precision. *)
Theorem by_year_descending_cohorts {F : Float64} (range : RangeOracle) (db : Store)
    (today : Date) (userID : string) (rows : list YearRow) :
  range_ok range →
  dbQuery db (selectPositionsByYear db userID today) = Some rows →
  ∃ assets,
    getAssetsByYearHandler range db today userID
    = HttpOK (AssetsByYearResponse.mk today assets) ∧
    StronglySorted (λ a b, YearlyAsset.Year a > YearlyAsset.Year b) assets ∧
    (∀ y, y ∈ YearlyAsset.Year <$> assets ↔
          ∃ r, r ∈ rows ∧ yr_trade_year r = y ∧
               resolved db today (yr_fund_id r) ≠ None) ∧
    (∀ a, a ∈ assets →
       YearlyAsset.CurrentValue a
       = f64_floor (cohort_value db today rows (YearlyAsset.Year a)) ∧
       YearlyAsset.CurrentPL a
       = f64_floor (cohort_value db today rows (YearlyAsset.Year a)
                    - cohort_cost db today rows (YearlyAsset.Year a))%f64) ∧
    (∀ y, cohort db today rows y
          = omap (λ r, (λ price, (value_at price (yr_total_quantity r),
                                  yr_total_buy_cost r))
                         <$> resolved db today (yr_fund_id r))
                 (filter (λ r, yr_trade_year r = y) rows)) ∧
    NoDup ((λ r, (yr_trade_year r, yr_fund_id r)) <$> rows).
Proof.
  intros Hrange Hq. exists (yearlyAssets range db today rows). split_and!.
  - unfold getAssetsByYearHandler. by rewrite Hq.
  - apply strictly_sorted_of_NoDup; [apply sortSlice_sorted|].
    rewrite (yearlyAssets_Permutation _ _ _ _ Hrange).
    rewrite <- list_fmap_compose.
    apply (NoDup_fst_map_to_list (yearlySummary (yearLoop db today rows))).
  - intros y. rewrite (yearlyAssets_years _ _ _ _ _ Hrange). apply cohort_nonempty.
  - intros a Ha. apply yearlyAssets_elem in Ha as (data & Hl & Ha); [|done].
    destruct (yearLoop_invariant db today rows) as [_ Hs].
    specialize (Hs (YearlyAsset.Year a)). rewrite Hl in Hs.
    destruct Hs as (_ & Hv & Hc). rewrite Ha. unfold yearlyAsset.
    cbn [YearlyAsset.CurrentValue YearlyAsset.CurrentPL YearlyAsset.Year fst snd].
    by rewrite Hv, Hc.
  - intros y. apply cohort_rows.
  - apply dbQuery_sublist in Hq as [rest Hq].
    pose proof (selectPositionsByYear_NoDup db userID today) as Hnd.
    rewrite Hq, fmap_app in Hnd. by apply NoDup_app in Hnd as (Hnd & _ & _).
Qed.

(** In the example ledger fund 1 was bought in 2023 and in 2024: the two
    years are listed, the later first, each with the value of its own
    purchase. *)
Lemma by_year_descending_cohorts_witness :
  range_ok range_reversed ∧
  ∃ assets,
    getAssetsByYearHandler (F:=binary64) range_reversed demo_db (ymd 2025 1 1) "u1"
    = HttpOK (AssetsByYearResponse.mk (ymd 2025 1 1) assets) ∧
    StronglySorted (λ a b, YearlyAsset.Year a > YearlyAsset.Year b) assets ∧
    YearlyAsset.Year <$> assets = [2024; 2023].
Proof.
  split; [exact range_reversed_ok|].
  destruct (by_year_descending_cohorts (F:=binary64) range_reversed demo_db
              (ymd 2025 1 1) "u1"
              (selectPositionsByYear demo_db "u1" (ymd 2025 1 1))
              range_reversed_ok eq_refl) as (assets & Hresp & Hsorted & _).
  exists assets. split_and!; [exact Hresp|exact Hsorted|].
  assert (Hrun : getAssetsByYearHandler (F:=binary64) range_reversed demo_db
                   (ymd 2025 1 1) "u1"
                 = HttpOK (AssetsByYearResponse.mk (ymd 2025 1 1)
                             [YearlyAsset.mk 2024 220 20; YearlyAsset.mk 2023 110 20]))
    by (vm_compute; reflexivity).
  rewrite Hrun in Hresp. by injection Hresp as <-.
Defined.

(** ** Year-bucketed valuation: groups without a current price *)

Lemma yearStep_cache_sound {F : Float64} db currentDate st row :
  cache_sound db currentDate (priceCache st) →
  cache_sound db currentDate (priceCache (yearStep db currentDate st row)).
Proof.
  intros Hc. unfold yearStep.
  pose proof (cachedPrice_sound db currentDate (priceCache st) (yr_fund_id row) Hc) as Hp.
  destruct (cachedPrice db currentDate (priceCache st) (yr_fund_id row))
    as [[p cache']|]; [apply Hp|done].
Qed.

Lemma yearStep_unresolved {F : Float64} db currentDate st row :
  cache_sound db currentDate (priceCache st) →
  resolved db currentDate (yr_fund_id row) = None →
  yearStep db currentDate st row = st.
Proof.
  intros Hc Hres. unfold yearStep.
  pose proof (cachedPrice_sound db currentDate (priceCache st) (yr_fund_id row) Hc) as Hp.
  destruct (cachedPrice db currentDate (priceCache st) (yr_fund_id row))
    as [[p cache']|]; [|done].
  destruct Hp as [Hp _]. congruence.
Qed.

Lemma yearLoop_skip_from {F : Float64} db currentDate f rows st :
  resolved db currentDate f = None →
  cache_sound db currentDate (priceCache st) →
  foldl (yearStep db currentDate) st rows
  = foldl (yearStep db currentDate) st (filter (λ r, yr_fund_id r ≠ f) rows).
Proof.
  intros Hres. revert st.
  induction rows as [|row rows IH]; intros st Hc; [done|].
  rewrite filter_cons. destruct (decide (yr_fund_id row ≠ f)) as [Hne|Heq]; simpl.
  - apply IH. by apply yearStep_cache_sound.
  - rewrite yearStep_unresolved; [by apply IH|done|].
    destruct (decide (yr_fund_id row = f)) as [->|]; done.
Qed.

Lemma yearLoop_skip {F : Float64} db currentDate f rows :
  resolved db currentDate f = None →
  yearLoop db currentDate rows
  = yearLoop db currentDate (filter (λ r, yr_fund_id r ≠ f) rows).
Proof.
  intros Hres. unfold yearLoop. apply yearLoop_skip_from; [done|].
  intros f' p Hl. simpl in Hl. by rewrite lookup_empty in Hl.
Qed.

Lemma cohort_all_unresolved {F : Float64} db currentDate rows y :
  (∀ r, r ∈ rows → yr_trade_year r = y →
        resolved db currentDate (yr_fund_id r) = None) →
  cohort db currentDate rows y = [].
Proof.
  unfold cohort. induction rows as [|row rows IH]; intros Hall; [done|].
  csimpl. unfold year_contribution at 1.
  destruct (resolved db currentDate (yr_fund_id row)) as [p|] eqn:Hres.
  - rewrite filter_cons. simpl.
    destruct (decide (yr_trade_year row = y)) as [Hy|Hy].
    + rewrite Hall in Hres; [done|left|done].
    + apply IH. intros r Hr. apply Hall. by right.
  - apply IH. intros r Hr. apply Hall. by right.
Qed.

Lemma ErrNoRows_unresolved {F : Float64} db currentDate f :
  queryLatestPrice db f currentDate = ErrNoRows → resolved db currentDate f = None.
Proof. intros Hq. unfold resolved, scanLatestPrice. by rewrite Hq. Qed.

(** C10 — In year-bucketed valuation the rows of a fund without a reference
    price at or before today are skipped: the request is answered with
    status 200 and with the entries it would have without those rows
    (neither the value nor the buy cost of any year is touched by them), and
    a year all of whose rows are skipped this way has no entry in the
    [assets] list. *)
Theorem by_year_unpriced_groups_skipped {F : Float64} (range : RangeOracle) (db : Store)
    (currentDate : Date) (rows : list YearRow) :
  range_ok range →
  (∀ f, queryLatestPrice db f currentDate = ErrNoRows →
     assetsByYearResponse range db currentDate rows
     = HttpOK (AssetsByYearResponse.mk currentDate
                 (yearlyAssets range db currentDate
                    (filter (λ r, yr_fund_id r ≠ f) rows)))) ∧
  (∀ y, (∀ r, r ∈ rows → yr_trade_year r = y →
              queryLatestPrice db (yr_fund_id r) currentDate = ErrNoRows) →
     y ∉ YearlyAsset.Year <$> yearlyAssets range db currentDate rows).
Proof.
  intros Hrange. split.
  - intros f Hno. unfold assetsByYearResponse, yearlyAssets.
    by rewrite (yearLoop_skip db currentDate f rows (ErrNoRows_unresolved _ _ _ Hno)).
  - intros y Hall Hin. apply yearlyAssets_years in Hin; [|done].
    apply Hin, cohort_all_unresolved.
    intros r Hr Hy. by apply ErrNoRows_unresolved, Hall.
Qed.

(** Fund 2 has no reference price in the example ledger: its 2022 row is
    skipped and 2022 gets no entry. *)
Lemma by_year_unpriced_groups_skipped_witness :
  range_ok range_stored ∧
  queryLatestPrice demo_db 2 (ymd 2025 1 1) = ErrNoRows ∧
  assetsByYearResponse (F:=binary64) range_stored demo_db (ymd 2025 1 1)
    [mkYearRow 2024 1 20000 (f64_of_int 200); mkYearRow 2022 2 5000 (f64_of_int 50)]
  = HttpOK (AssetsByYearResponse.mk (ymd 2025 1 1)
              (yearlyAssets (F:=binary64) range_stored demo_db (ymd 2025 1 1)
                 [mkYearRow 2024 1 20000 (f64_of_int 200)])).
Proof.
  assert (Hno : queryLatestPrice demo_db 2 (ymd 2025 1 1) = ErrNoRows)
    by (vm_compute; reflexivity).
  split_and!; [exact range_stored_ok|exact Hno|].
  exact (proj1 (by_year_unpriced_groups_skipped (F:=binary64) range_stored demo_db
                  (ymd 2025 1 1)
                  [mkYearRow 2024 1 20000 (f64_of_int 200);
                   mkYearRow 2022 2 5000 (f64_of_int 50)]
                  range_stored_ok) 2 Hno).
Defined.

(** In one state of the store every fund returned by the position query has
    a reference price at or before the as-of date (the one it was joined
    with), so [sql.ErrNoRows] can only meet a position when the rows and the
    prices come from different states of the store. *)
Lemma held_funds_are_priced {F : Float64} db userID date r :
  r ∈ selectPositions db userID date →
  selectLatestPrice db (pr_fund_id r) date ≠ None.
Proof.
  intros Hr Hnone. apply selectPositions_elem in Hr as (Hk & _ & _).
  apply list_elem_of_fmap in Hk as ([th rp] & Hf & Hrow). simpl in Hf.
  unfold selected_rows in Hrow. apply list_elem_of_filter in Hrow as [[_ Hd] Hrow].
  unfold joined in Hrow. apply list_elem_of_bind in Hrow as (th' & Hrow & _).
  apply list_elem_of_fmap in Hrow as (rp' & [= <- <-] & Hrp).
  apply list_elem_of_filter in Hrp as [[Hjf Hjd] Hrp]. simpl in Hd.
  apply (selectLatestPrice_None _ _ _ Hnone rp Hrp).
  split; [congruence|]. by rewrite <- Hjd.
Qed.
(** ** Failures of the store *)

(** C5, as stated, fails — The store fails while fund 4 of a held position
    is priced, and the request is answered with status 200 and the value of
    fund 1 alone (200) instead of an internal server error; without the
    failure the value is 250. Likewise when the connection breaks after the
    first row of the position query has been read: the request is answered
    with status 200 and the value of the fund of that row alone (50). *)
Lemma failed_price_lookup_answers_partial_valuation :
  4 ∈ pr_fund_id <$> selectPositions (F:=binary64) flaky_db "u1" (ymd 2024 1 10) ∧
  queryLatestPrice flaky_db 4 (ymd 2024 1 10) = ScanErr ∧
  getAssetsHandler (F:=binary64) range_stored flaky_db (ymd 2024 1 10) "u1" DateAbsent
  = HttpOK (AssetData.mk (ymd 2024 1 10) 200 0) ∧
  getAssetsHandler (F:=binary64) range_stored
    (mkStore (trade_histories flaky_db) (reference_prices flaky_db) no_faults)
    (ymd 2024 1 10) "u1" DateAbsent
  = HttpOK (AssetData.mk (ymd 2024 1 10) 250 0) ∧
  getAssetsHandler (F:=binary64) range_stored
    (mkStore (trade_histories flaky_db) (reference_prices flaky_db)
             (mkFaults false (Some 1%nat) (λ _, false)))
    (ymd 2024 1 10) "u1" DateAbsent
  = HttpOK (AssetData.mk (ymd 2024 1 10) 200 0).
Proof.
  split_and!; [by_evaluation|vm_compute; reflexivity..].
Qed.

Lemma price_err_unresolved db targetDate f :
  price_err (faults db) f = true → queryLatestPrice db f targetDate = ScanErr.
Proof. intros Herr. unfold queryLatestPrice. by rewrite Herr. Qed.

(** When the connection breaks while the rows of a position query are read,
    [rows.Err()] is logged and the handlers go on with the rows read so
    far. *)
Lemma interrupted_rows_are_valued {F : Float64} range db today userID dateParam
    targetDate n :
  target_date today dateParam = Some targetDate →
  query_err (faults db) = false →
  rows_err (faults db) = Some n →
  getAssetsHandler range db today userID dateParam
  = assetsResponse range db targetDate (take n (selectPositions db userID targetDate)) ∧
  getAssetsByYearHandler range db today userID
  = assetsByYearResponse range db today (take n (selectPositionsByYear db userID today)).
Proof.
  intros Hd Hok Hrows. split.
  - apply getAssetsHandler_served; [done|]. unfold dbQuery. by rewrite Hok, Hrows.
  - unfold getAssetsByYearHandler, dbQuery. by rewrite Hok, Hrows.
Qed.

(** C5, amended — When [db.Query] returns an error for the position query,
    either valuation request is aborted with an internal server error and no
    body. A failure of the price lookup of a fund does not abort the
    single-date request: the fund is skipped and the request is answered
    with status 200 by the valuation of the other positions read, whether
    all the rows of the query were read or not. *)
Theorem query_failure_aborts_lookup_failure_skips {F : Float64} (range : RangeOracle)
    (db : Store) (today : Date) (userID : string) (dateParam : DateParam)
    (targetDate : Date) :
  target_date today dateParam = Some targetDate →
  (query_err (faults db) = true →
     getAssetsHandler range db today userID dateParam
     = HttpError StatusInternalServerError ∧
     getAssetsByYearHandler range db today userID
     = HttpError StatusInternalServerError) ∧
  (∀ rows f,
     dbQuery db (selectPositions db userID targetDate) = Some rows →
     price_err (faults db) f = true →
     getAssetsHandler range db today userID dateParam
     = HttpOK (assetData targetDate
                 (valuationLoop db targetDate
                    (filter (λ pos, FundID pos ≠ f)
                            (snd <$> range _ (collectPositions rows)))))).
Proof.
  intros Hd. split.
  - intros Herr. unfold getAssetsHandler, getAssetsByYearHandler, dbQuery.
    rewrite Herr. by destruct dateParam.
  - intros rows f Hq Herr.
    rewrite (getAssetsHandler_served _ _ _ _ _ _ _ Hd Hq).
    unfold assetsResponse, valuationLoop. do 2 f_equal.
    apply valuationLoop_skip. intros pos acc <-.
    unfold valuePosition, scanLatestPrice.
    by rewrite (price_err_unresolved _ _ _ Herr).
Qed.

Lemma query_failure_aborts_lookup_failure_skips_witness :
  target_date (ymd 2024 1 10) DateAbsent = Some (ymd 2024 1 10) ∧
  getAssetsHandler (F:=binary64) range_stored flaky_db (ymd 2024 1 10) "u1" DateAbsent
  = HttpOK (assetData (F:=binary64) (ymd 2024 1 10)
              (valuationLoop flaky_db (ymd 2024 1 10)
                 [mkPosition 1 20000 (f64_of_int 200)])).
Proof.
  split; [reflexivity|].
  etransitivity;
    [exact (proj2 (query_failure_aborts_lookup_failure_skips (F:=binary64)
                     range_stored flaky_db
                     (ymd 2024 1 10) "u1" DateAbsent (ymd 2024 1 10) eq_refl)
                  (selectPositions flaky_db "u1" (ymd 2024 1 10)) 4 eq_refl eq_refl)|].
  vm_compute. reflexivity.
Defined.

(** ** Scenarios *)

Example scenario_purchase_day :
  getAssetsHandler (F:=binary64) range_stored scenario_db (ymd 2025 1 1) "u1"
    (DateParsed (ymd 2024 1 10))
  = HttpOK (AssetData.mk (ymd 2024 1 10) 200 0).
Proof. vm_compute. reflexivity. Qed.

Example scenario_later_price :
  getAssetsHandler (F:=binary64) range_stored scenario_db (ymd 2025 1 1) "u1"
    (DateParsed (ymd 2024 6 1))
  = HttpOK (AssetData.mk (ymd 2024 6 1) 220 20).
Proof. vm_compute. reflexivity. Qed.

(** The trade of fund 2 is in no aggregate although fund 2 has a price
    later on. *)
Example scenario_unpriced_trade_dropped :
  pr_fund_id <$> selectPositions (F:=binary64) scenario_db "u1" (ymd 2024 6 1) = [1] ∧
  getTradesCountHandler scenario_db "u1" = HttpOK (TradesResponse.mk 2).
Proof. split; vm_compute; reflexivity. Qed.

Example scenario_by_year :
  getAssetsByYearHandler (F:=binary64) range_reversed demo_db (ymd 2025 1 1) "u1"
  = HttpOK (AssetsByYearResponse.mk (ymd 2025 1 1)
              [YearlyAsset.mk 2024 220 20; YearlyAsset.mk 2023 110 20]).
Proof. vm_compute. reflexivity. Qed.

Example malformed_date_rejected :
  getAssetsHandler (F:=binary64) range_stored scenario_db (ymd 2025 1 1) "u1"
    DateMalformed
  = HttpError StatusBadRequest.
Proof. reflexivity. Qed.

(** * Further properties of the handlers *)

(** ** Which rows of the tables a request depends on *)

Lemma filter_where_trade_nil userID date th (l : list ReferencePrice) :
  ¬ (th_user_id th = userID ∧ date_le (th_trade_date th) date) →
  filter (where_user_date userID date) ((λ rp, (th, rp)) <$> l) = [].
Proof.
  intros Hno. induction l as [|rp l IH]; csimpl; [done|].
  by rewrite filter_cons_False.
Qed.

(** A trade that does not pass the [WHERE] clause leaves no selected row. *)
Lemma selected_rows_without_trade db userID date l1 th l2 :
  ¬ (th_user_id th = userID ∧ date_le (th_trade_date th) date) →
  selected_rows (with_trades db (l1 ++ th :: l2)) userID date
  = selected_rows (with_trades db (l1 ++ l2)) userID date.
Proof.
  intros Hno. unfold selected_rows, joined, with_trades; simpl.
  rewrite !bind_app, bind_cons, !filter_app.
  by rewrite (filter_where_trade_nil _ _ _ _ Hno).
Qed.

Lemma with_trades_id db : with_trades db (trade_histories db) = db.
Proof. by destruct db. Qed.

Lemma selectPositions_of_selected_rows {F : Float64} db1 db2 userID date :
  selected_rows db1 userID date = selected_rows db2 userID date →
  selectPositions db1 userID date = selectPositions db2 userID date ∧
  selectPositionsByYear db1 userID date = selectPositionsByYear db2 userID date.
Proof.
  unfold selected_rows, selectPositions, selectPositionsByYear. by intros ->.
Qed.

Lemma valuationLoop_ext {F : Float64} db1 db2 targetDate visited :
  (∀ f, queryLatestPrice db1 f targetDate = queryLatestPrice db2 f targetDate) →
  valuationLoop db1 targetDate visited = valuationLoop db2 targetDate visited.
Proof.
  intros Hq. unfold valuationLoop. generalize (f64_zero, f64_zero).
  induction visited as [|pos visited IH]; intros acc; [done|]. simpl.
  rewrite IH. f_equal. unfold valuePosition, scanLatestPrice. by rewrite Hq.
Qed.

Lemma yearLoop_ext {F : Float64} db1 db2 currentDate rows :
  (∀ f, queryLatestPrice db1 f currentDate = queryLatestPrice db2 f currentDate) →
  yearLoop db1 currentDate rows = yearLoop db2 currentDate rows.
Proof.
  intros Hq. unfold yearLoop. generalize (mkYearLoop ∅ ∅).
  induction rows as [|row rows IH]; intros st; [done|]. simpl.
  rewrite IH. f_equal. unfold yearStep, cachedPrice, scanLatestPrice. by rewrite Hq.
Qed.

(** The two valuation handlers only see the store through the faults, the
    two position queries and the price lookups. *)
Lemma getAssetsHandler_ext {F : Float64} range db1 db2 today userID dateParam :
  faults db1 = faults db2 →
  (∀ targetDate, target_date today dateParam = Some targetDate →
     selected_rows db1 userID targetDate = selected_rows db2 userID targetDate ∧
     ∀ f, queryLatestPrice db1 f targetDate = queryLatestPrice db2 f targetDate) →
  getAssetsHandler range db1 today userID dateParam
  = getAssetsHandler range db2 today userID dateParam.
Proof.
  intros Hf Hsame.
  assert (∀ targetDate, target_date today dateParam = Some targetDate →
            match dbQuery db1 (selectPositions db1 userID targetDate) with
            | None => HttpError StatusInternalServerError
            | Some rows => assetsResponse range db1 targetDate rows
            end
            = match dbQuery db2 (selectPositions db2 userID targetDate) with
              | None => HttpError StatusInternalServerError
              | Some rows => assetsResponse range db2 targetDate rows
              end) as Hserve.
  { intros targetDate Hd. destruct (Hsame _ Hd) as [Hrows Hq].
    apply selectPositions_of_selected_rows in Hrows as [-> _].
    unfold dbQuery. rewrite Hf.
    destruct (query_err (faults db2)); [done|].
    unfold assetsResponse.
    destruct (rows_err (faults db2)); by rewrite (valuationLoop_ext db1 db2). }
  unfold getAssetsHandler. destruct dateParam as [| |parsedDate]; [|done|];
    by apply Hserve.
Qed.

Lemma getAssetsByYearHandler_ext {F : Float64} range db1 db2 today userID :
  faults db1 = faults db2 →
  selected_rows db1 userID today = selected_rows db2 userID today →
  (∀ f, queryLatestPrice db1 f today = queryLatestPrice db2 f today) →
  getAssetsByYearHandler range db1 today userID
  = getAssetsByYearHandler range db2 today userID.
Proof.
  intros Hf Hrows Hq. unfold getAssetsByYearHandler.
  apply selectPositions_of_selected_rows in Hrows as [_ ->].
  unfold dbQuery. rewrite Hf.
  destruct (query_err (faults db2)); [done|].
  unfold assetsByYearResponse, yearlyAssets.
  destruct (rows_err (faults db2)); by rewrite (yearLoop_ext db1 db2).
Qed.

(** X1 — A row of [trade_histories] that belongs to another user changes
    nothing in what the three handlers answer for a user, wherever it is in
    the table. *)
Theorem other_users_trades_do_not_interfere {F : Float64} (range : RangeOracle) (db : Store)
    (today : Date) (userID : string) (dateParam : DateParam)
    (l1 l2 : list TradeHistory) (th : TradeHistory) :
  trade_histories db = l1 ++ l2 →
  th_user_id th ≠ userID →
  getTradesCountHandler (with_trades db (l1 ++ th :: l2)) userID
  = getTradesCountHandler db userID ∧
  getAssetsHandler range (with_trades db (l1 ++ th :: l2)) today userID dateParam
  = getAssetsHandler range db today userID dateParam ∧
  getAssetsByYearHandler range (with_trades db (l1 ++ th :: l2)) today userID
  = getAssetsByYearHandler range db today userID.
Proof.
  intros Htrades Hother.
  assert (∀ date, selected_rows (with_trades db (l1 ++ th :: l2)) userID date
                  = selected_rows db userID date) as Hrows.
  { intros date. rewrite <- (with_trades_id db) at 2. rewrite Htrades.
    apply selected_rows_without_trade. tauto. }
  split_and!.
  - unfold getTradesCountHandler, queryCount, selectCount, with_trades; simpl.
    rewrite Htrades, !filter_app, filter_cons_False by done. done.
  - apply getAssetsHandler_ext; [done|]. intros targetDate _. split; [apply Hrows|done].
  - apply getAssetsByYearHandler_ext; [done|apply Hrows|done].
Qed.

Lemma other_users_trades_do_not_interfere_witness :
  getAssetsHandler (F:=binary64) range_stored
    (with_trades demo_db (mkTrade "u9" 1 777 (ymd 2024 1 10) :: trade_histories demo_db))
    (ymd 2025 1 1) "u1" DateAbsent
  = getAssetsHandler (F:=binary64) range_stored demo_db (ymd 2025 1 1) "u1" DateAbsent.
Proof.
  refine (proj1 (proj2 (other_users_trades_do_not_interfere (F:=binary64)
                          range_stored demo_db
                          (ymd 2025 1 1) "u1" DateAbsent [] (trade_histories demo_db)
                          (mkTrade "u9" 1 777 (ymd 2024 1 10)) eq_refl _))).
  by_evaluation.
Defined.

(** X2 — A trade dated after the valuation date changes nothing in the
    answer of [GET /{user_id}/assets] for that date, and a trade dated after
    today changes nothing in the answer of [GET /{user_id}/assets/byYear]:
    past valuations are stable when later trades are recorded. *)
Theorem later_trades_do_not_change_valuation {F : Float64} (range : RangeOracle) (db : Store)
    (today : Date) (userID : string) (dateParam : DateParam) (targetDate : Date)
    (l1 l2 : list TradeHistory) (th : TradeHistory) :
  trade_histories db = l1 ++ l2 →
  target_date today dateParam = Some targetDate →
  ¬ date_le (th_trade_date th) targetDate →
  getAssetsHandler range (with_trades db (l1 ++ th :: l2)) today userID dateParam
  = getAssetsHandler range db today userID dateParam ∧
  (¬ date_le (th_trade_date th) today →
   getAssetsByYearHandler range (with_trades db (l1 ++ th :: l2)) today userID
   = getAssetsByYearHandler range db today userID).
Proof.
  intros Htrades Hd Hlater.
  assert (∀ date, ¬ date_le (th_trade_date th) date →
                  selected_rows (with_trades db (l1 ++ th :: l2)) userID date
                  = selected_rows db userID date) as Hrows.
  { intros date Hafter. rewrite <- (with_trades_id db) at 2. rewrite Htrades.
    apply selected_rows_without_trade. tauto. }
  split.
  - apply getAssetsHandler_ext; [done|]. intros targetDate' Hd'.
    assert (targetDate' = targetDate) as -> by congruence.
    split; [by apply Hrows|done].
  - intros Hfuture. apply getAssetsByYearHandler_ext; [done|by apply Hrows|done].
Qed.

Lemma later_trades_do_not_change_valuation_witness :
  getAssetsHandler (F:=binary64) range_stored
    (with_trades demo_db (mkTrade "u1" 1 5000 (ymd 2024 6 1) :: trade_histories demo_db))
    (ymd 2025 1 1) "u1" (DateParsed (ymd 2024 1 10))
  = getAssetsHandler (F:=binary64) range_stored demo_db (ymd 2025 1 1) "u1"
      (DateParsed (ymd 2024 1 10)).
Proof.
  refine (proj1 (later_trades_do_not_change_valuation (F:=binary64)
                   range_stored demo_db
                   (ymd 2025 1 1) "u1" (DateParsed (ymd 2024 1 10)) (ymd 2024 1 10)
                   [] (trade_histories demo_db)
                   (mkTrade "u1" 1 5000 (ymd 2024 6 1)) eq_refl eq_refl _)).
  by_evaluation.
Defined.

Lemma with_prices_id db : with_prices db (reference_prices db) = db.
Proof. by destruct db. Qed.

Lemma filter_where_join_without_price userID date th p1 rp p2 :
  ¬ date_le (rp_price_date rp) date →
  filter (where_user_date userID date)
         ((λ rp', (th, rp')) <$> filter (join_on th) (p1 ++ rp :: p2))
  = filter (where_user_date userID date)
           ((λ rp', (th, rp')) <$> filter (join_on th) (p1 ++ p2)).
Proof.
  intros Hlater. rewrite !(filter_app (join_on th)), (filter_cons (join_on th)).
  destruct (decide (join_on th rp)) as [[_ Hdate]|]; [|done].
  rewrite !fmap_app, fmap_cons, !filter_app. f_equal.
  rewrite filter_cons_False; [done|].
  intros [_ Hle]. simpl in Hle. by rewrite Hdate in Hle.
Qed.

Lemma selected_rows_without_price db userID date p1 rp p2 :
  ¬ date_le (rp_price_date rp) date →
  selected_rows (with_prices db (p1 ++ rp :: p2)) userID date
  = selected_rows (with_prices db (p1 ++ p2)) userID date.
Proof.
  intros Hlater. unfold selected_rows, joined, with_prices; simpl.
  induction (trade_histories db) as [|th l IH]; [done|].
  rewrite !bind_cons, !(filter_app (where_user_date userID date)), IH. f_equal.
  by apply filter_where_join_without_price.
Qed.

Lemma queryLatestPrice_without_price db f date p1 rp p2 :
  ¬ date_le (rp_price_date rp) date →
  queryLatestPrice (with_prices db (p1 ++ rp :: p2)) f date
  = queryLatestPrice (with_prices db (p1 ++ p2)) f date.
Proof.
  intros Hlater. unfold queryLatestPrice, selectLatestPrice, with_prices; simpl.
  rewrite !filter_app, filter_cons_False; [done|]. tauto.
Qed.

(** X3 — No look-ahead: a reference price dated after the valuation date
    changes nothing in the answer of [GET /{user_id}/assets] for that date,
    neither through the cost-basis join nor through the current price; a
    price dated after today changes nothing in [/assets/byYear]. *)
Theorem later_prices_do_not_change_valuation {F : Float64} (range : RangeOracle) (db : Store)
    (today : Date) (userID : string) (dateParam : DateParam) (targetDate : Date)
    (p1 p2 : list ReferencePrice) (rp : ReferencePrice) :
  reference_prices db = p1 ++ p2 →
  target_date today dateParam = Some targetDate →
  ¬ date_le (rp_price_date rp) targetDate →
  getAssetsHandler range (with_prices db (p1 ++ rp :: p2)) today userID dateParam
  = getAssetsHandler range db today userID dateParam ∧
  (¬ date_le (rp_price_date rp) today →
   getAssetsByYearHandler range (with_prices db (p1 ++ rp :: p2)) today userID
   = getAssetsByYearHandler range db today userID).
Proof.
  intros Hprices Hd Hlater.
  assert (∀ date, ¬ date_le (rp_price_date rp) date →
            selected_rows (with_prices db (p1 ++ rp :: p2)) userID date
            = selected_rows db userID date ∧
            ∀ f, queryLatestPrice (with_prices db (p1 ++ rp :: p2)) f date
                 = queryLatestPrice db f date) as Hsame.
  { intros date Hafter. split; [|intros f].
    - rewrite (selected_rows_without_price db userID date p1 rp p2 Hafter).
      by rewrite <- Hprices, with_prices_id.
    - rewrite (queryLatestPrice_without_price db f date p1 rp p2 Hafter).
      by rewrite <- Hprices, with_prices_id. }
  split.
  - apply getAssetsHandler_ext; [done|]. intros targetDate' Hd'.
    assert (targetDate' = targetDate) as -> by congruence.
    by apply Hsame.
  - intros Hfuture. destruct (Hsame today Hfuture) as [Hrows Hq].
    by apply getAssetsByYearHandler_ext.
Qed.

Lemma later_prices_do_not_change_valuation_witness :
  getAssetsHandler (F:=binary64) range_stored
    (with_prices demo_db (mkPrice 1 999 (ymd 2024 3 1) :: reference_prices demo_db))
    (ymd 2025 1 1) "u1" (DateParsed (ymd 2024 1 10))
  = getAssetsHandler (F:=binary64) range_stored demo_db (ymd 2025 1 1) "u1"
      (DateParsed (ymd 2024 1 10)).
Proof.
  refine (proj1 (later_prices_do_not_change_valuation (F:=binary64)
                   range_stored demo_db
                   (ymd 2025 1 1) "u1" (DateParsed (ymd 2024 1 10)) (ymd 2024 1 10)
                   [] (reference_prices demo_db)
                   (mkPrice 1 999 (ymd 2024 3 1)) eq_refl eq_refl _)).
  by_evaluation.
Defined.

(** ** A user without trades *)

Lemma selected_rows_no_trades db userID date :
  (∀ th, th ∈ trade_histories db → th_user_id th ≠ userID) →
  selected_rows db userID date = [].
Proof.
  unfold selected_rows, joined. generalize (reference_prices db). intros prices.
  induction (trade_histories db) as [|th l IH]; intros Hall; [done|].
  rewrite bind_cons, filter_app, IH.
  - rewrite filter_where_trade_nil; [done|].
    intros [Hu _]. by apply (Hall th); [left|].
  - intros th' Hin. apply Hall. by right.
Qed.

Lemma range_empty (range : RangeOracle) V : range_ok range → range V ∅ = [].
Proof.
  intros Hrange. apply Permutation_nil_r. rewrite (Hrange V ∅).
  by rewrite map_to_list_empty.
Qed.

(** X4 — For a user without any row in [trade_histories] the three handlers
    answer with status 200 (unless the store fails or the date is
    malformed): a count of 0, a valuation and a profit/loss of 0 dated at the
    target date, and an empty list of years. An unknown user is not an
    error. *)
Theorem user_without_trades_gets_zeros {F : Float64} (range : RangeOracle) (db : Store)
    (today : Date) (userID : string) (dateParam : DateParam) (targetDate : Date) :
  range_ok range →
  query_err (faults db) = false →
  target_date today dateParam = Some targetDate →
  (∀ th, th ∈ trade_histories db → th_user_id th ≠ userID) →
  getTradesCountHandler db userID = HttpOK (TradesResponse.mk 0) ∧
  getAssetsHandler range db today userID dateParam
  = HttpOK (AssetData.mk targetDate 0 0) ∧
  getAssetsByYearHandler range db today userID
  = HttpOK (AssetsByYearResponse.mk today []).
Proof.
  intros Hrange Hok Hd Hnone.
  assert (∀ A (l : list A), dbQuery db ([] : list A) = Some []) as Hq.
  { intros A _. unfold dbQuery. rewrite Hok.
    destruct (rows_err (faults db)) as [n|]; [by rewrite take_nil|done]. }
  assert (∀ date, selectPositions db userID date = [] ∧
                  selectPositionsByYear db userID date = []) as Hsel.
  { intros date. pose proof (selected_rows_no_trades db userID date Hnone) as Hrows.
    unfold selected_rows in Hrows. unfold selectPositions, selectPositionsByYear.
    by rewrite Hrows. }
  split_and!.
  - unfold getTradesCountHandler, queryCount, selectCount. rewrite Hok.
    do 3 f_equal. induction (trade_histories db) as [|th l IH]; [done|].
    rewrite filter_cons_False; [apply IH|apply Hnone; left].
    intros th' Hin. apply Hnone. by right.
  - destruct (Hsel targetDate) as [Hpos _].
    rewrite (getAssetsHandler_served range db today userID dateParam targetDate []);
      [|done|by rewrite Hpos; apply (Hq PositionRow [])].
    unfold assetsResponse. change (collectPositions []) with (∅ : gmap Z Position).
    rewrite (range_empty range Position Hrange). unfold assetData. csimpl.
    by rewrite f64_floor_zero, f64_floor_zero_sub.
  - destruct (Hsel today) as [_ Hyear].
    unfold getAssetsByYearHandler. rewrite Hyear, (Hq YearRow []).
    unfold assetsByYearResponse, yearlyAssets.
    change (yearlySummary (yearLoop db today [])) with (∅ : gmap Z yearlyFundData).
    by rewrite (range_empty range yearlyFundData Hrange).
Qed.

Lemma user_without_trades_gets_zeros_witness :
  getAssetsHandler (F:=binary64) range_reversed demo_db (ymd 2025 1 1) "nobody" DateAbsent
  = HttpOK (AssetData.mk (ymd 2025 1 1) 0 0).
Proof.
  refine (proj1 (proj2 (user_without_trades_gets_zeros (F:=binary64)
                          range_reversed demo_db
                          (ymd 2025 1 1) "nobody" DateAbsent (ymd 2025 1 1)
                          range_reversed_ok eq_refl eq_refl _))).
  apply (Forall_forall (λ th, th_user_id th ≠ "nobody")). by_evaluation.
Defined.

(** ** The price cache of the year loop *)

Lemma yearStep_direct {F : Float64} db currentDate st row :
  cache_sound db currentDate (priceCache st) →
  yearlySummary (yearStep db currentDate st row)
  = yearStepDirect db currentDate (yearlySummary st) row.
Proof.
  intros Hc. unfold yearStep, yearStepDirect, cachedPrice.
  destruct (priceCache st !! yr_fund_id row) as [p|] eqn:Hl.
  - by rewrite (Hc _ _ Hl).
  - by destruct (scanLatestPrice db (yr_fund_id row) currentDate).
Qed.

Lemma yearLoop_direct_from {F : Float64} db currentDate rows st :
  cache_sound db currentDate (priceCache st) →
  yearlySummary (foldl (yearStep db currentDate) st rows)
  = foldl (yearStepDirect db currentDate) (yearlySummary st) rows.
Proof.
  revert st. induction rows as [|row rows IH]; intros st Hc; [done|]. simpl.
  rewrite IH by (by apply yearStep_cache_sound).
  by rewrite yearStep_direct.
Qed.

(** X5 — The price cache of [getAssetsByYearHandler] is transparent: the
    per-year sums at the end of the loop are those of a loop that asks the
    store for the price of every row, and every cached entry is the price
    the store resolves for that fund. *)
Theorem price_cache_is_transparent {F : Float64} (db : Store) (currentDate : Date)
    (rows : list YearRow) :
  yearlySummary (yearLoop db currentDate rows)
  = foldl (yearStepDirect db currentDate) ∅ rows ∧
  ∀ f p, priceCache (yearLoop db currentDate rows) !! f = Some p →
         scanLatestPrice db f currentDate = Scanned p.
Proof.
  split.
  - unfold yearLoop. rewrite yearLoop_direct_from; [done|].
    intros f p Hl. simpl in Hl. by rewrite lookup_empty in Hl.
  - apply (yearLoop_invariant db currentDate rows).
Qed.

(** ** A failing price lookup in the year loop *)

(** X6 — In year-bucketed valuation a failure of the price lookup of a fund
    is handled like a missing price: the rows of that fund are skipped in
    every year, nothing is cached for it, and the request is answered with
    status 200 by the entries it would have without those rows. *)
Theorem by_year_failed_lookup_skips_fund {F : Float64} (range : RangeOracle) (db : Store)
    (currentDate : Date) (rows : list YearRow) (f : Z) :
  price_err (faults db) f = true →
  assetsByYearResponse range db currentDate rows
  = HttpOK (AssetsByYearResponse.mk currentDate
              (yearlyAssets range db currentDate
                 (filter (λ r, yr_fund_id r ≠ f) rows))) ∧
  priceCache (yearLoop db currentDate rows) !! f = None.
Proof.
  intros Herr.
  assert (resolved db currentDate f = None) as Hres.
  { unfold resolved, scanLatestPrice. by rewrite (price_err_unresolved _ _ _ Herr). }
  split.
  - unfold assetsByYearResponse, yearlyAssets. by rewrite (yearLoop_skip _ _ f rows Hres).
  - destruct (yearLoop_invariant db currentDate rows) as [Hc _].
    destruct (priceCache (yearLoop db currentDate rows) !! f) as [p|] eqn:Hl; [|done].
    apply Hc in Hl. unfold resolved in Hres. by rewrite Hl in Hres.
Qed.

Lemma by_year_failed_lookup_skips_fund_witness :
  assetsByYearResponse (F:=binary64) range_stored flaky_db (ymd 2025 1 1)
    [mkYearRow 2024 1 20000 (f64_of_int 200); mkYearRow 2024 4 10000 (f64_of_int 50);
     mkYearRow 2023 4 10 (f64_of_int 1)]
  = HttpOK (AssetsByYearResponse.mk (ymd 2025 1 1)
              (yearlyAssets (F:=binary64) range_stored flaky_db (ymd 2025 1 1)
                 [mkYearRow 2024 1 20000 (f64_of_int 200)])).
Proof.
  exact (proj1 (by_year_failed_lookup_skips_fund (F:=binary64) range_stored flaky_db
                  (ymd 2025 1 1)
                  [mkYearRow 2024 1 20000 (f64_of_int 200);
                   mkYearRow 2024 4 10000 (f64_of_int 50);
                   mkYearRow 2023 4 10 (f64_of_int 1)] 4 eq_refl)).
Defined.

(** ** An empty price table *)

(** X7 — While [reference_prices] is empty every valuation is zero: the
    join with the purchase price leaves no position, whatever the trades.
    The trade count is not affected. *)
Theorem no_prices_no_valuation {F : Float64} (range : RangeOracle) (db : Store)
    (today : Date) (userID : string) (dateParam : DateParam) (targetDate : Date) :
  range_ok range →
  query_err (faults db) = false →
  target_date today dateParam = Some targetDate →
  reference_prices db = [] →
  getAssetsHandler range db today userID dateParam
  = HttpOK (AssetData.mk targetDate 0 0) ∧
  getAssetsByYearHandler range db today userID
  = HttpOK (AssetsByYearResponse.mk today []) ∧
  getTradesCountHandler db userID
  = HttpOK (TradesResponse.mk (raw_row_count userID (trade_histories db))).
Proof.
  intros Hrange Hok Hd Hempty.
  assert (∀ A (l : list A), dbQuery db ([] : list A) = Some []) as Hq.
  { intros A _. unfold dbQuery. rewrite Hok.
    destruct (rows_err (faults db)) as [n|]; [by rewrite take_nil|done]. }
  assert (joined db = []) as Hjoin.
  { unfold joined. rewrite Hempty.
    induction (trade_histories db) as [|th l IH]; [done|].
    by rewrite bind_cons, IH. }
  assert (∀ date, selectPositions db userID date = [] ∧
                  selectPositionsByYear db userID date = []) as Hsel.
  { intros date. unfold selectPositions, selectPositionsByYear. by rewrite Hjoin. }
  split_and!.
  - destruct (Hsel targetDate) as [Hpos _].
    rewrite (getAssetsHandler_served range db today userID dateParam targetDate []);
      [|done|by rewrite Hpos; apply (Hq PositionRow [])].
    unfold assetsResponse. change (collectPositions []) with (∅ : gmap Z Position).
    rewrite (range_empty range Position Hrange). unfold assetData. csimpl.
    by rewrite f64_floor_zero, f64_floor_zero_sub.
  - destruct (Hsel today) as [_ Hyear].
    unfold getAssetsByYearHandler. rewrite Hyear, (Hq YearRow []).
    unfold assetsByYearResponse, yearlyAssets.
    change (yearlySummary (yearLoop db today [])) with (∅ : gmap Z yearlyFundData).
    by rewrite (range_empty range yearlyFundData Hrange).
  - unfold getTradesCountHandler, queryCount. rewrite Hok.
    by rewrite selectCount_raw.
Qed.

Lemma no_prices_no_valuation_witness :
  getAssetsHandler (F:=binary64) range_stored (with_prices demo_db []) (ymd 2025 1 1) "u1" DateAbsent
  = HttpOK (AssetData.mk (ymd 2025 1 1) 0 0).
Proof.
  exact (proj1 (no_prices_no_valuation (F:=binary64) range_stored
                  (with_prices demo_db [])
                  (ymd 2025 1 1) "u1" DateAbsent (ymd 2025 1 1)
                  range_stored_ok eq_refl eq_refl eq_refl)).
Defined.

(** ** Waiting for the database *)

Lemma pingLoop_all_fail ping i n run :
  (∀ j, (i ≤ j < i + n)%nat → ping j = false) →
  (0 < n)%nat →
  pingLoop ping i n run = mkPingRun true (pings run + n) (sleeps run + n).
Proof.
  revert i run. induction n as [|n IH]; intros i run Hfail Hn; [lia|].
  simpl. rewrite Hfail by lia.
  destruct n as [|n'].
  - simpl. f_equal; lia.
  - rewrite IH; [|intros j Hj; apply Hfail; lia|lia]. simpl. f_equal; lia.
Qed.

Lemma pingLoop_first_success ping i n run k :
  (k < n)%nat →
  ping (i + k)%nat = true →
  (∀ j, (j < k)%nat → ping (i + j)%nat = false) →
  pingLoop ping i n run = mkPingRun false (pings run + S k) (sleeps run + k).
Proof.
  revert i n run. induction k as [|k IH]; intros i n run Hk Hyes Hno.
  - destruct n as [|n]; [lia|]. simpl. rewrite Nat.add_0_r in Hyes. rewrite Hyes.
    f_equal; lia.
  - destruct n as [|n]; [lia|]. simpl.
    specialize (Hno 0%nat ltac:(lia)) as Hfirst. rewrite Nat.add_0_r in Hfirst.
    rewrite Hfirst. rewrite (IH (S i) n); simpl.
    + f_equal; lia.
    + lia.
    + by replace (S (i + k)) with (i + S k)%nat by lia.
    + intros j Hj. replace (S (i + j)) with (i + S j)%nat by lia. apply Hno. lia.
Qed.

Lemma pingLoop_pings_le ping i n run :
  (pings (pingLoop ping i n run) ≤ pings run + n)%nat.
Proof.
  revert i run. induction n as [|n IH]; intros i run; simpl; [lia|].
  destruct (ping i); simpl; [lia|]. rewrite IH. simpl. lia.
Qed.

(** X8 — The start-up loop of the server pings the database until the first
    success: when ping [k] (counted from 0, [k < 10]) is the first to
    succeed, the loop ends without error after [k + 1] pings and [k] sleeps;
    when the first ten pings all fail, it ends with the error after exactly
    ten pings and ten sleeps (the last sleep precedes the fatal exit). It
    never pings an eleventh time. *)
Theorem database_wait_stops_at_first_success (ping : nat → bool) :
  (∀ k, (k < DB_RETRY_ATTEMPTS)%nat → ping k = true →
        (∀ j, (j < k)%nat → ping j = false) →
        waitForDatabase ping = mkPingRun false (S k) k) ∧
  ((∀ j, (j < DB_RETRY_ATTEMPTS)%nat → ping j = false) →
   waitForDatabase ping = mkPingRun true DB_RETRY_ATTEMPTS DB_RETRY_ATTEMPTS) ∧
  (pings (waitForDatabase ping) ≤ DB_RETRY_ATTEMPTS)%nat.
Proof.
  assert (Hfirst : ∀ k, (k < DB_RETRY_ATTEMPTS)%nat → ping k = true →
            (∀ j, (j < k)%nat → ping j = false) →
            waitForDatabase ping = mkPingRun false (S k) k).
  { intros k Hk Hyes Hno. unfold waitForDatabase.
    by rewrite (pingLoop_first_success ping 0 DB_RETRY_ATTEMPTS _ k). }
  assert (Hnone : (∀ j, (j < DB_RETRY_ATTEMPTS)%nat → ping j = false) →
            waitForDatabase ping = mkPingRun true DB_RETRY_ATTEMPTS DB_RETRY_ATTEMPTS).
  { intros Hfail. unfold waitForDatabase.
    rewrite pingLoop_all_fail; [done| |unfold DB_RETRY_ATTEMPTS; lia].
    intros j Hj. apply Hfail. lia. }
  split_and!; [exact Hfirst|exact Hnone|].
  unfold waitForDatabase. by rewrite pingLoop_pings_le.
Qed.

(** * Properties of the import program *)

Section import_properties.

Context {Args Row K : Type} `{EqDecision K}.
Context (convert : list string → ImportError + Args).
Context (stored : Args → option Row).
Context (key : Row → K).

Lemma importLoop_app pending l1 l2 :
  importLoop convert stored key pending (l1 ++ l2)
  = match importLoop convert stored key pending l1 with
    | (pending', None) => importLoop convert stored key pending' l2
    | (pending', Some e) => (pending', Some e)
    end.
Proof.
  revert pending. induction l1 as [|rd l1 IH]; intros pending; [done|].
  simpl. destruct rd as [record|]; [|done].
  destruct (convert record) as [e|args]; [done|].
  destruct (execInsert stored key pending args) as [pending'|]; [apply IH|done].
Qed.

(** The transaction only grows, and by one stored row per record read. *)
Lemma importLoop_rows pending reads pending' result :
  importLoop convert stored key pending reads = (pending', result) →
  ∃ rows done_reads,
    pending' = pending ++ rows ∧
    Forall2 (λ rd row, ∃ record args,
               rd = CsvRecord record ∧ convert record = inr args ∧
               stored args = Some row) done_reads rows ∧
    (result = None → done_reads = reads) ∧
    (∀ row, row ∈ rows → key row ∉ key <$> pending) ∧
    NoDup (key <$> rows).
Proof.
  revert pending. induction reads as [|rd reads IH]; intros pending Hrun.
  - simpl in Hrun. injection Hrun as <- <-. exists [], [].
    rewrite app_nil_r.
    split_and!; [done|constructor|done|by intros ? ?%elem_of_nil|constructor].
  - assert (∀ e, (pending, Some e) = (pending', result) →
              ∃ rows done_reads,
                pending' = pending ++ rows ∧
                Forall2 (λ rd row, ∃ record args,
                           rd = CsvRecord record ∧ convert record = inr args ∧
                           stored args = Some row) done_reads rows ∧
                (result = None → done_reads = rd :: reads) ∧
                (∀ row, row ∈ rows → key row ∉ key <$> pending) ∧
                NoDup (key <$> rows)) as Hstop.
    { intros e [= <- <-]. exists [], []. rewrite app_nil_r.
      split_and!; [done|constructor|done|by intros ? ?%elem_of_nil|constructor]. }
    simpl in Hrun. destruct rd as [record|]; [|by eapply Hstop].
    destruct (convert record) as [e|args] eqn:Hconv; [by eapply Hstop|].
    unfold execInsert in Hrun.
    destruct (stored args) as [row|] eqn:Hstored; [|by eapply Hstop].
    destruct (decide (key row ∈ key <$> pending)) as [Hdup|Hfresh]; [by eapply Hstop|].
    apply IH in Hrun as (rows & done_reads & -> & Hall & Hdone & Hnew & Hnd).
    exists (row :: rows), (CsvRecord record :: done_reads).
    split_and!.
    + by rewrite <- app_assoc.
    + constructor; [by exists record, args|done].
    + intros Hres. by rewrite Hdone.
    + intros row' [->|Hin]%elem_of_cons; [done|].
      intros Hmem. apply (Hnew row' Hin). rewrite fmap_app. apply elem_of_app. by left.
    + rewrite fmap_cons. apply NoDup_cons. split; [|done].
      intros Hmem. apply list_elem_of_fmap in Hmem as (row' & Hk & Hin).
      apply (Hnew row' Hin). rewrite <- Hk, fmap_app. apply elem_of_app. right. left.
Qed.

Lemma importLoop_NoDup pending reads :
  NoDup (key <$> pending) → NoDup (key <$> (importLoop convert stored key pending reads).1).
Proof.
  intros Hnd. destruct (importLoop convert stored key pending reads) as [pending' result] eqn:Hrun.
  apply importLoop_rows in Hrun as (rows & _ & -> & _ & _ & Hnew & Hrows). simpl.
  rewrite fmap_app. apply NoDup_app. split_and!; [done| |done].
  intros k Hk Hin. apply list_elem_of_fmap in Hin as (row & -> & Hin).
  by apply (Hnew row Hin).
Qed.

(** X9 — The importers are not all-or-nothing. When the file became
    unreadable, ill-formed or rejected at some record after records that
    were imported without error, the importer returns the error of that
    record and the table nevertheless keeps the rows of the records before
    it: it ends as after a successful import of those records alone. (The
    deferred function commits, because the error of the loop never reaches
    the variable it tests.) *)
Theorem failed_import_keeps_earlier_rows (faults : TxFaults)
    (header : list string) (good : list CsvRead) (bad : CsvRead) (rest : list CsvRead)
    (table table' : list Row) (e : ImportError) :
  commit_err faults = false →
  importCSV convert stored key faults (Some (CsvRecord header :: good)) table = (table', None) →
  importLoop convert stored key table' [bad] = (table', Some e) →
  importCSV convert stored key faults (Some (CsvRecord header :: good ++ bad :: rest)) table
  = (table', Some e).
Proof.
  intros Hcommit Hgood Hbad. unfold importCSV in *.
  destruct (begin_err faults); [done|]. destruct (prepare_err faults); [done|].
  rewrite Hcommit in *. rewrite importLoop_app.
  destruct (importLoop convert stored key table good) as [pending result]. injection Hgood as -> ->.
  simpl in Hbad |- *. destruct bad as [record|]; [|done].
  destruct (convert record) as [e'|args]; [done|].
  destruct (execInsert stored key table' args) as [pending'|] eqn:Hexec; [|done].
  exfalso. unfold execInsert in Hexec. destruct (stored args) as [row|]; [|done].
  destruct (decide (key row ∈ key <$> table')); [done|].
  injection Hexec as <-. injection Hbad as Hbad _.
  apply (f_equal length) in Hbad. rewrite length_app in Hbad. simpl in Hbad. lia.
Qed.

(** X10 — An import that returns no error (and whose commit succeeds) has
    appended one row per record of the file after the header, in the order
    of the file, each being the row the store makes of the converted
    record; the keys of the new rows are pairwise distinct and distinct from
    the keys already in the table. *)
Theorem successful_import_appends_every_record (faults : TxFaults)
    (header : list string) (reads : list CsvRead) (table table' : list Row) :
  commit_err faults = false →
  importCSV convert stored key faults (Some (CsvRecord header :: reads)) table = (table', None) →
  ∃ rows,
    table' = table ++ rows ∧
    Forall2 (λ rd row, ∃ record args,
               rd = CsvRecord record ∧ convert record = inr args ∧
               stored args = Some row) reads rows ∧
    (NoDup (key <$> table) → NoDup (key <$> table')).
Proof.
  intros Hcommit Hrun. unfold importCSV in Hrun.
  destruct (begin_err faults); [done|]. destruct (prepare_err faults); [done|].
  rewrite Hcommit in Hrun.
  destruct (importLoop convert stored key table reads) as [pending result] eqn:Hloop.
  injection Hrun as -> ->.
  pose proof (importLoop_NoDup table reads) as Hnd. rewrite Hloop in Hnd.
  apply importLoop_rows in Hloop as (rows & done_reads & -> & Hall & Hdone & _ & _).
  rewrite (Hdone eq_refl) in Hall. by exists rows.
Qed.

(** X11 — Importing a file a second time fails on its first record with the
    insertion error (the key is already there) and changes nothing: an
    import cannot be repeated to complete or refresh a table. *)
Theorem import_twice_fails_on_first_record (faults : TxFaults)
    (header record : list string) (reads : list CsvRead) (table table' : list Row) :
  commit_err faults = false →
  importCSV convert stored key faults (Some (CsvRecord header :: CsvRecord record :: reads)) table
  = (table', None) →
  importCSV convert stored key faults (Some (CsvRecord header :: CsvRecord record :: reads)) table'
  = (table', Some (ErrInsert record)).
Proof.
  intros Hcommit Hrun. unfold importCSV in *.
  destruct (begin_err faults); [done|]. destruct (prepare_err faults); [done|].
  rewrite Hcommit in *. simpl in *.
  destruct (convert record) as [e|args]; [done|].
  unfold execInsert in *. destruct (stored args) as [row|]; [|done].
  destruct (decide (key row ∈ key <$> table)) as [|Hfresh]; [done|].
  destruct (importLoop convert stored key (table ++ [row]) reads) as [pending result] eqn:Hloop.
  injection Hrun as -> ->.
  apply importLoop_rows in Hloop as (rows & _ & -> & _).
  rewrite decide_True; [done|].
  rewrite !fmap_app. apply elem_of_app. left. apply elem_of_app. right. left.
Qed.

End import_properties.

Lemma failed_import_keeps_earlier_rows_witness :
  importTradeHistories atoi10 parseISODate (λ _, false) no_tx_faults
    (Some trades_csv_bad_quantity) []
  = ([mkTrade "u1" 1 20000 (ymd 2024 1 10); mkTrade "u2" 1 400 (ymd 2024 1 10)],
     Some (ErrQuantity "5,000")).
Proof.
  assert (Hgood : importTradeHistories atoi10 parseISODate (λ _, false) no_tx_faults
                    (Some trades_csv_good) []
                  = ([mkTrade "u1" 1 20000 (ymd 2024 1 10);
                      mkTrade "u2" 1 400 (ymd 2024 1 10)], None))
    by (vm_compute; reflexivity).
  refine (failed_import_keeps_earlier_rows
            (tradeOfRecord atoi10 parseISODate) (λ th, if false then None else Some th)
            trade_key no_tx_faults
            ["user_id"; "fund_id"; "quantity"; "trade_date"]
            [CsvRecord ["u1"; "1"; "20000"; "2024-01-10"];
             CsvRecord ["u2"; "1"; "400"; "2024-01-10"]]
            (CsvRecord ["u1"; "2"; "5,000"; "2024-02-01"])
            [CsvRecord ["u1"; "3"; "700"; "2024-03-01"]]
            [] _ (ErrQuantity "5,000") eq_refl Hgood _).
  vm_compute. reflexivity.
Defined.

Lemma successful_import_appends_every_record_witness :
  ∃ rows,
    [mkPrice 1 (10000 # 100) (ymd 2024 1 10); mkPrice 1 (11050 # 100) (ymd 2024 6 1)] = [] ++ rows ∧
    length rows = 2%nat.
Proof.
  assert (Hrun : importReferencePrices atoi10 parseISODate decimal2 (λ _, false)
                   no_tx_faults (Some prices_csv) []
                 = ([mkPrice 1 (10000 # 100) (ymd 2024 1 10);
                     mkPrice 1 (11050 # 100) (ymd 2024 6 1)], None))
    by (vm_compute; reflexivity).
  destruct (successful_import_appends_every_record _ _ _ no_tx_faults _ _ _ _
              eq_refl Hrun) as (rows & Hrows & Hall & _).
  exists rows. split; [exact Hrows|].
  apply Forall2_length in Hall. by rewrite <- Hall.
Defined.

Lemma import_twice_fails_on_first_record_witness :
  importTradeHistories atoi10 parseISODate (λ _, false) no_tx_faults
    (Some trades_csv_good)
    [mkTrade "u1" 1 20000 (ymd 2024 1 10); mkTrade "u2" 1 400 (ymd 2024 1 10)]
  = ([mkTrade "u1" 1 20000 (ymd 2024 1 10); mkTrade "u2" 1 400 (ymd 2024 1 10)],
     Some (ErrInsert ["u1"; "1"; "20000"; "2024-01-10"])).
Proof.
  assert (Hrun : importTradeHistories atoi10 parseISODate (λ _, false) no_tx_faults
                   (Some trades_csv_good) []
                 = ([mkTrade "u1" 1 20000 (ymd 2024 1 10);
                     mkTrade "u2" 1 400 (ymd 2024 1 10)], None))
    by (vm_compute; reflexivity).
  exact (import_twice_fails_on_first_record
           (tradeOfRecord atoi10 parseISODate) (λ th, if false then None else Some th)
           trade_key no_tx_faults _ _ _ _ _ eq_refl Hrun).
Defined.

(** ** The importers and the server *)

Lemma tradeOfRecord_user Atoi parseDate record th :
  tradeOfRecord Atoi parseDate record = inr th →
  ∃ rest, record = th_user_id th :: rest.
Proof.
  unfold tradeOfRecord.
  destruct record as [|f0 [|f1 [|f2 [|f3 [|f4 record]]]]]; try done.
  destruct (Atoi f1); [|done]. destruct (Atoi f2); [|done].
  destruct (parseDate f3); [|done]. intros [= <-]. by eexists.
Qed.

Lemma raw_row_count_app userID l1 l2 :
  raw_row_count userID (l1 ++ l2) = raw_row_count userID l1 + raw_row_count userID l2.
Proof. induction l1 as [|th l1 IH]; simpl; lia. Qed.

(** X12 — After an import of trades that returns no error, the count that
    [GET /{user_id}/trades] answers for a user has grown by the number of
    records of the file, after the header, whose first field is that user
    id. *)
Theorem imported_trades_are_counted (Atoi : string → option Z)
    (parseDate : string → option Date) (refused : TradeHistory → bool)
    (tx : TxFaults) (header : list string) (reads : list CsvRead)
    (db : Store) (table' : list TradeHistory) (userID : string) :
  commit_err tx = false →
  query_err (faults db) = false →
  importTradeHistories Atoi parseDate refused tx
    (Some (CsvRecord header :: reads)) (trade_histories db) = (table', None) →
  getTradesCountHandler (with_trades db table') userID
  = HttpOK (TradesResponse.mk
              (raw_row_count userID (trade_histories db)
               + Z.of_nat (length (filter (first_field_is userID) reads)))).
Proof.
  intros Hcommit Hok Hrun.
  unfold importTradeHistories, importCSV in Hrun.
  destruct (begin_err tx); [done|]. destruct (prepare_err tx); [done|].
  rewrite Hcommit in Hrun.
  destruct (importLoop _ _ _ (trade_histories db) reads) as [pending result] eqn:Hloop.
  injection Hrun as -> ->.
  apply importLoop_rows in Hloop as (rows & done_reads & -> & Hall & Hdone & _ & _).
  rewrite (Hdone eq_refl) in Hall. clear Hdone.
  unfold getTradesCountHandler, queryCount. simpl. rewrite Hok.
  rewrite selectCount_raw. simpl. rewrite raw_row_count_app. do 3 f_equal.
  induction Hall as [|rd row reads rows (record & th & -> & Hconv & Hstored) _ IH];
    [done|].
  destruct (refused th); [done|]. injection Hstored as <-.
  apply tradeOfRecord_user in Hconv as [rest ->].
  rewrite filter_cons. simpl raw_row_count. simpl first_field_is.
  destruct (decide (th_user_id th = userID)); simpl length; lia.
Qed.

Lemma imported_trades_are_counted_witness :
  getTradesCountHandler
    (with_trades demo_db
       (trade_histories demo_db ++ [mkTrade "u1" 9 20000 (ymd 2024 1 10);
                                     mkTrade "u2" 9 400 (ymd 2024 1 10)]))
    "u1"
  = HttpOK (TradesResponse.mk 5).
Proof.
  assert (Hrun : importTradeHistories atoi10 parseISODate (λ _, false) no_tx_faults
                   (Some [CsvRecord ["user_id"; "fund_id"; "quantity"; "trade_date"];
                          CsvRecord ["u1"; "9"; "20000"; "2024-01-10"];
                          CsvRecord ["u2"; "9"; "400"; "2024-01-10"]])
                   (trade_histories demo_db)
                 = (trade_histories demo_db ++ [mkTrade "u1" 9 20000 (ymd 2024 1 10);
                                                 mkTrade "u2" 9 400 (ymd 2024 1 10)],
                    None))
    by (vm_compute; reflexivity).
  exact (imported_trades_are_counted atoi10 parseISODate (λ _, false) no_tx_faults
           _ _ demo_db _ "u1" eq_refl eq_refl Hrun).
Defined.

(** ** The example importer of users *)

Lemma usersLoop_done Atoi refused pending reads pending' :
  usersLoop Atoi refused pending reads = (pending', UsersDone) →
  pending' = pending ++ omap (userOfRead Atoi) reads ∧
  Forall (λ rd, ∃ record, rd = CsvRecord record ∧ (2 ≤ length record)%nat) reads.
Proof.
  revert pending. induction reads as [|rd reads IH]; intros pending Hrun.
  - simpl in Hrun. injection Hrun as <-. by rewrite app_nil_r.
  - simpl in Hrun. destruct rd as [[|name [|field record]]|]; try done.
    assert (∃ record', CsvRecord (name :: field :: record) = CsvRecord record' ∧
                       (2 ≤ length record')%nat) as Hlong
      by (eexists; split; [done|simpl; lia]).
    csimpl. destruct (Atoi field) as [age|]; csimpl.
    + destruct (refused (name, age)); [done|].
      apply IH in Hrun as [Hrun Hall]. split; [|by constructor].
      by rewrite Hrun, <- app_assoc.
    + apply IH in Hrun as [Hrun Hall]. split; [done|by constructor].
Qed.

(** The loop goes through records of at least two fields whose row is not
    refused without stopping. *)
Lemma usersLoop_app Atoi refused pending good reads :
  Forall (λ rd, ∃ name field more,
            rd = CsvRecord (name :: field :: more) ∧
            ∀ age, Atoi field = Some age → refused (name, age) = false) good →
  usersLoop Atoi refused pending (good ++ reads)
  = usersLoop Atoi refused (pending ++ omap (userOfRead Atoi) good) reads.
Proof.
  intros Hgood. revert pending.
  induction Hgood as [|rd good (name & field & more & -> & Hok) _ IH]; intros pending.
  - by rewrite app_nil_r.
  - csimpl. destruct (Atoi field) as [age|] eqn:Hage; csimpl.
    + rewrite (Hok age eq_refl), IH. by rewrite <- app_assoc.
    + apply IH.
Qed.

(** X14 — [importCSVToDB] is all-or-nothing: unless it ends without error
    the table is as before (also after a panic), and when it ends without
    error every record had at least two fields and the table has gained, in
    the order of the file, one row for each record whose second field is a
    number; records whose age is not a number are skipped. A record with
    fewer than two fields makes it panic wherever it is in the file, once
    the records before it have at least two fields and none of their rows is
    refused by the store. *)
Theorem users_import_all_or_nothing (Atoi : string → option Z)
    (refused : string * Z → bool) (tx : TxFaults)
    (file : option (list CsvRead)) (table : list (string * Z)) :
  ((importCSVToDB Atoi refused tx file table).2 ≠ UsersDone →
   (importCSVToDB Atoi refused tx file table).1 = table) ∧
  ((importCSVToDB Atoi refused tx file table).2 = UsersDone →
   ∃ header reads,
     file = Some (CsvRecord header :: reads) ∧
     Forall (λ rd, ∃ record, rd = CsvRecord record ∧ (2 ≤ length record)%nat) reads ∧
     (importCSVToDB Atoi refused tx file table).1
     = table ++ omap (userOfRead Atoi) reads) ∧
  (∀ header good record rest,
     (length record < 2)%nat →
     begin_err tx = false → prepare_err tx = false →
     Forall (λ rd, ∃ name field more,
               rd = CsvRecord (name :: field :: more) ∧
               ∀ age, Atoi field = Some age → refused (name, age) = false) good →
     importCSVToDB Atoi refused tx
       (Some (CsvRecord header :: good ++ CsvRecord record :: rest)) table
     = (table, UsersPanic)).
Proof.
  split_and!.
  - unfold importCSVToDB.
    destruct file as [[|[header|] reads]|]; try done.
    destruct (begin_err tx); [done|]. destruct (prepare_err tx); [done|].
    destruct (usersLoop Atoi refused table reads) as [pending []]; try done.
    by destruct (commit_err tx).
  - unfold importCSVToDB.
    destruct file as [[|[header|] reads]|]; try done.
    destruct (begin_err tx); [done|]. destruct (prepare_err tx); [done|].
    destruct (usersLoop Atoi refused table reads) as [pending outcome] eqn:Hloop.
    destruct outcome; try done.
    destruct (commit_err tx); [done|]. intros _. exists header, reads.
    apply usersLoop_done in Hloop as [Hrows Hall]. done.
  - intros header good record rest Hlen Hbegin Hprepare Hgood. unfold importCSVToDB.
    rewrite Hbegin, Hprepare, (usersLoop_app _ _ _ _ _ Hgood).
    destruct record as [|name [|field record]]; simpl in *; try done. lia.
Qed.

(** The third record of the example file is the short one: the two before it
    are inserted, then the importer panics and the table is as before. *)
Example users_import_panics_at_third_record :
  importCSVToDB atoi10 (λ _, false) no_tx_faults
    (Some [ CsvRecord ["name"; "age"]; CsvRecord ["ann"; "31"];
            CsvRecord ["bob"; "n/a"]; CsvRecord ["cid"]; CsvRecord ["dan"; "52"] ])
    [("zoe", 20)]
  = ([("zoe", 20)], UsersPanic) ∧
  importCSVToDB atoi10 (λ _, false) no_tx_faults (Some users_csv) [("zoe", 20)]
  = ([("zoe", 20); ("ann", 31); ("cid", 47)], UsersDone).
Proof. split; vm_compute; reflexivity. Qed.

(** * Further properties of the valuations *)

Lemma joined_elem db row :
  row ∈ joined db →
  row.1 ∈ trade_histories db ∧ row.2 ∈ reference_prices db ∧ join_on row.1 row.2.
Proof.
  unfold joined. intros Hrow.
  apply list_elem_of_bind in Hrow as (th & Hrow & Hth).
  apply list_elem_of_fmap in Hrow as (rp & -> & Hrp).
  apply list_elem_of_filter in Hrp as [Hj Hrp]. done.
Qed.

Lemma resolved_price_is_a_row db f date p :
  queryLatestPrice db f date = Scanned p →
  ∃ rp, rp ∈ reference_prices db ∧ rp_fund_id rp = f ∧ rp_price rp = p ∧
        date_le (rp_price_date rp) date ∧
        ∀ rp', rp' ∈ reference_prices db → rp_fund_id rp' = f →
               date_le (rp_price_date rp') date →
               date_le (rp_price_date rp') (rp_price_date rp).
Proof.
  unfold queryLatestPrice. destruct (price_err (faults db) f); [done|].
  destruct (selectLatestPrice db f date) as [price|] eqn:Hsel; [|done].
  intros [= <-].
  apply selectLatestPrice_Some in Hsel as (rp & Hin & [Hf Hd] & Hp & Hmax).
  exists rp. split_and!; try done. intros rp' Hin' Hf' Hd'. by apply Hmax.
Qed.

(** The price a fund is valued at is the double of the price of the latest
    row of the fund at or before the date. *)
Lemma resolved_price {F : Float64} db f date p :
  resolved db date f = Some p →
  ∃ rp, rp ∈ reference_prices db ∧ rp_fund_id rp = f ∧
        p = f64_of_decimal (rp_price rp) ∧ date_le (rp_price_date rp) date.
Proof.
  unfold resolved, scanLatestPrice.
  destruct (queryLatestPrice db f date) as [price| |] eqn:Hq; try done.
  intros [= <-].
  apply resolved_price_is_a_row in Hq as (rp & Hin & Hf & <- & Hd & _).
  by exists rp.
Qed.

(** ** Sign of the valuation *)

Section totals_within.

Context {F : Float64} (within : float64 → Prop).
Hypothesis within_zero : within f64_zero.
Hypothesis within_add : ∀ x y, within x → within y → within (x + y)%f64.

Lemma sum_double_within (l : list float64) : Forall within l → within (sum_double l).
Proof.
  unfold sum_double. generalize within_zero. generalize f64_zero.
  intros acc Hacc Hall. revert acc Hacc.
  induction Hall as [|x l Hx _ IH]; intros acc Hacc; simpl; [done|].
  apply IH. by apply within_add.
Qed.

(** When the value of every priced position of positive quantity is
    [within], so are the value totals of both valuations. *)
Hypothesis within_value : ∀ db rp q,
  (∀ rp', rp' ∈ reference_prices db → Qle 0 (rp_price rp')) →
  rp ∈ reference_prices db → 0 < q →
  within (value_at (f64_of_decimal (rp_price rp)) q).

Lemma value_sum_within db targetDate held :
  (∀ rp, rp ∈ reference_prices db → Qle 0 (rp_price rp)) →
  (∀ pos, pos ∈ held → 0 < TotalQuantity pos) →
  within (value_sum db targetDate held).
Proof.
  intros Hprices Hheld. unfold value_sum. apply sum_double_within.
  apply Forall_forall. intros v Hv.
  apply list_elem_of_fmap in Hv as ([v' c] & -> & Hin). simpl.
  apply list_elem_of_omap in Hin as (pos & Hpos & Hc).
  unfold contribution in Hc.
  destruct (resolved db targetDate (FundID pos)) as [p|] eqn:Hres; [|done].
  injection Hc as <- <-.
  apply resolved_price in Hres as (rp & Hin & _ & -> & _).
  apply (within_value db); [done|done|by apply Hheld].
Qed.

Lemma cohort_value_within db currentDate rows y :
  (∀ rp, rp ∈ reference_prices db → Qle 0 (rp_price rp)) →
  (∀ r, r ∈ rows → 0 < yr_total_quantity r) →
  within (cohort_value db currentDate rows y).
Proof.
  intros Hprices Hrows. unfold cohort_value. rewrite cohort_rows.
  apply sum_double_within.
  apply Forall_forall. intros v Hv.
  apply list_elem_of_fmap in Hv as ([v' c] & -> & Hin). simpl.
  apply list_elem_of_omap in Hin as (r & Hr & Hc).
  apply list_elem_of_filter in Hr as [_ Hr].
  destruct (resolved db currentDate (yr_fund_id r)) as [p|] eqn:Hres; [|done].
  injection Hc as <- <-.
  apply resolved_price in Hres as (rp & Hin & _ & -> & _).
  apply (within_value db); [done|done|by apply Hrows].
Qed.

(** Both handlers floor a value total that is [within]. *)
Lemma valuations_within range db today userID dateParam :
  range_ok range →
  (∀ rp, rp ∈ reference_prices db → Qle 0 (rp_price rp)) →
  (∀ body, getAssetsHandler range db today userID dateParam = HttpOK body →
           ∃ total, within total ∧ AssetData.CurrentValue body = f64_floor total) ∧
  (∀ body a, getAssetsByYearHandler range db today userID = HttpOK body →
             a ∈ AssetsByYearResponse.Assets body →
             ∃ total, within total ∧ YearlyAsset.CurrentValue a = f64_floor total).
Proof.
  intros Hrange Hprices. split.
  - intros body Hresp.
    apply valuation_sums_then_floors_once in Hresp
      as (rows & visited & _ & Hq & Hvisited & Hvalue & _); [|done].
    eexists. split; [|exact Hvalue].
    apply value_sum_within; [done|].
    intros pos Hpos. rewrite Hvisited in Hpos.
    apply list_elem_of_fmap in Hpos as (r & -> & Hr). simpl.
    eapply dbQuery_elem in Hr; [|exact Hq].
    by apply selectPositions_elem in Hr as (_ & _ & Hpos).
  - intros body a Hresp Ha. unfold getAssetsByYearHandler in Hresp.
    destruct (dbQuery db (selectPositionsByYear db userID today)) as [rows|] eqn:Hq;
      [|done].
    injection Hresp as <-. simpl in Ha.
    apply yearlyAssets_elem in Ha as (data & Hl & Ha); [|done].
    destruct (yearLoop_invariant db today rows) as [_ Hs].
    specialize (Hs (YearlyAsset.Year a)). rewrite Hl in Hs.
    destruct Hs as (_ & Hv & _).
    exists (cohort_value db today rows (YearlyAsset.Year a)). split.
    + apply cohort_value_within; [done|].
      intros r Hr. eapply dbQuery_elem in Hr; [|exact Hq].
      by apply selectPositionsByYear_elem in Hr as (_ & _ & Hpos).
    + rewrite Ha. unfold yearlyAsset.
      cbn [YearlyAsset.CurrentValue fst snd]. by rewrite Hv.
Qed.

End totals_within.

(** *** In rational arithmetic *)

Lemma exact_value_at_nonneg (p : Q) (q : Z) :
  Qle 0 p → 0 < q → Qle 0 (value_at (F:=rational) p q).
Proof.
  intros Hp Hq. change (Qle 0 (p * inject_Z q / inject_Z 10000)).
  unfold Qdiv. apply Qmult_le_0_compat.
  - apply Qmult_le_0_compat; [done|].
    change (Qle (inject_Z 0) (inject_Z q)). rewrite <- Zle_Qle. lia.
  - by apply Qinv_le_0_compat.
Qed.

Lemma Qfloor_nonneg (x : Q) : Qle 0 x → 0 ≤ Qfloor x.
Proof. intros Hx. by apply (Qfloor_resp_le 0 x) in Hx. Qed.

(** *** In double precision *)

(** Rounding keeps the sign it is given. *)
Lemma binary_round_aux_not_negative mx ex lx :
  not_negative (binary_round_aux binary64_prec binary64_emax false mx ex lx).
Proof.
  unfold binary_round_aux.
  destruct (shr_fexp binary64_prec binary64_emax mx ex lx) as [mrs e'].
  destruct (shr_fexp binary64_prec binary64_emax _ e' loc_Exact) as [mrs' e''].
  destruct (shr_m mrs') as [|m|m]; simpl; [done| |done].
  by destruct (e'' <=? binary64_emax - binary64_prec)%Z.
Qed.

Lemma binary_round_not_negative mx ex :
  not_negative (binary_round binary64_prec binary64_emax false mx ex).
Proof.
  unfold binary_round. destruct (shl_align _ _ _) as [mz ez].
  apply binary_round_aux_not_negative.
Qed.

Lemma double_add_not_negative (x y : spec_float) :
  not_negative x → not_negative y →
  not_negative (SFadd binary64_prec binary64_emax x y).
Proof.
  destruct x as [sx|sx| |sx mx ex], y as [sy|sy| |sy my ey]; simpl;
    try done; try (by intros -> ->).
  intros -> ->. simpl. apply binary_round_not_negative.
Qed.

Lemma double_mul_not_negative (x y : spec_float) :
  not_negative x → not_negative y →
  not_negative (SFmul binary64_prec binary64_emax x y).
Proof.
  destruct x as [sx|sx| |sx mx ex], y as [sy|sy| |sy my ey]; simpl;
    try done; try (by intros -> ->).
  intros -> ->. apply binary_round_aux_not_negative.
Qed.

Lemma double_div_not_negative (x : spec_float) my ey :
  not_negative x →
  not_negative (SFdiv binary64_prec binary64_emax x (S754_finite false my ey)).
Proof.
  destruct x as [sx|sx| |sx mx ex]; simpl; try done; try (by intros ->).
  intros ->. destruct (SFdiv_core_binary _ _ _ _ _ _) as [[mz ez] lz].
  apply binary_round_aux_not_negative.
Qed.

Lemma double_of_decimal_not_negative (q : Q) :
  Qle 0 q → not_negative (double_of_decimal q).
Proof.
  intros Hq. unfold double_of_decimal.
  assert (0 ≤ Qnum q) as Hnum.
  { unfold Qle in Hq. simpl in Hq. lia. }
  destruct (Qnum q) as [|n|n]; [done| |lia].
  apply (double_div_not_negative (S754_finite false n 0)). done.
Qed.

Lemma double_of_int_not_negative (n : Z) : 0 < n → not_negative (double_of_int n).
Proof.
  intros Hn. unfold double_of_int, binary_normalize.
  destruct n as [|n|n]; [lia| |lia]. apply binary_round_not_negative.
Qed.

Lemma double_value_at_not_negative (p : spec_float) (q : Z) :
  not_negative p → 0 < q → not_negative (value_at (F:=binary64) p q).
Proof.
  intros Hp Hq. unfold value_at.
  assert (UNIT_PER_PRICE_BASE (F:=binary64) = S754_finite false 5497558138880000 (-39))
    as -> by (vm_compute; reflexivity).
  apply double_div_not_negative.
  apply double_mul_not_negative; [done|]. by apply double_of_int_not_negative.
Qed.

(** The floor of a double that is not negative is not negative, unless it
    does not fit in an [int64]. *)
Lemma int64_of_floor_not_negative (x : spec_float) :
  not_negative x → 0 ≤ int64_of_floor x ∨ int64_of_floor x = min_int64.
Proof.
  destruct x as [s|s| |s m e]; simpl; intros Hx; [by left|by right|by right|].
  subst s.
  destruct (decide (- 2 ^ 63 ≤ (if decide (0 ≤ e) then Z.pos m * 2 ^ e
                                else Z.pos m `div` 2 ^ (- e)) < 2 ^ 63)) as [_|_];
    [left|by right].
  destruct (decide (0 ≤ e)).
  - apply Z.mul_nonneg_nonneg; [lia|]. by apply Z.pow_nonneg.
  - apply Z.div_pos; [lia|]. apply Z.pow_pos_nonneg; lia.
Qed.

(** X15 — With reference prices that are not negative, no valuation is
    negative: the [current_value] of [GET /{user_id}/assets] and of every
    year of [/assets/byYear] is at least 0, because only positions of
    positive quantity are valued. This holds in rational arithmetic; in
    double precision it holds as long as the total fits in an [int64], the
    conversion of a total that does not (or that is infinite or not a
    number) yielding the least [int64]. *)
Theorem valuation_is_not_negative (range : RangeOracle) (db : Store)
    (today : Date) (userID : string) (dateParam : DateParam) :
  range_ok range →
  (∀ rp, rp ∈ reference_prices db → Qle 0 (rp_price rp)) →
  ((∀ body, getAssetsHandler (F:=rational) range db today userID dateParam = HttpOK body →
            0 ≤ AssetData.CurrentValue body) ∧
   (∀ body a, getAssetsByYearHandler (F:=rational) range db today userID = HttpOK body →
              a ∈ AssetsByYearResponse.Assets body →
              0 ≤ YearlyAsset.CurrentValue a)) ∧
  ((∀ body, getAssetsHandler (F:=binary64) range db today userID dateParam = HttpOK body →
            0 ≤ AssetData.CurrentValue body ∨ AssetData.CurrentValue body = min_int64) ∧
   (∀ body a, getAssetsByYearHandler (F:=binary64) range db today userID = HttpOK body →
              a ∈ AssetsByYearResponse.Assets body →
              0 ≤ YearlyAsset.CurrentValue a ∨ YearlyAsset.CurrentValue a = min_int64)).
Proof.
  intros Hrange Hprices. split.
  - destruct (valuations_within (F:=rational) (Qle 0) (Qle_refl 0)) with
      (range := range) (db := db) (today := today) (userID := userID)
      (dateParam := dateParam) as [Hone Hyear]; [| |done|done|].
    + intros x y Hx Hy. change (Qle (0 + 0) (x + y)). by apply Qplus_le_compat.
    + intros db' rp q Hall Hrp Hq. apply exact_value_at_nonneg; [by apply Hall|done].
    + split.
      * intros body Hresp. destruct (Hone body Hresp) as (total & Htotal & ->).
        by apply Qfloor_nonneg.
      * intros body a Hresp Ha. destruct (Hyear body a Hresp Ha) as (total & Htotal & ->).
        by apply Qfloor_nonneg.
  - destruct (valuations_within (F:=binary64) not_negative eq_refl) with
      (range := range) (db := db) (today := today) (userID := userID)
      (dateParam := dateParam) as [Hone Hyear]; [| |done|done|].
    + apply double_add_not_negative.
    + intros db' rp q Hall Hrp Hq. apply double_value_at_not_negative; [|done].
      apply double_of_decimal_not_negative. by apply Hall.
    + split.
      * intros body Hresp. destruct (Hone body Hresp) as (total & Htotal & ->).
        by apply int64_of_floor_not_negative.
      * intros body a Hresp Ha. destruct (Hyear body a Hresp Ha) as (total & Htotal & ->).
        by apply int64_of_floor_not_negative.
Qed.

Lemma valuation_is_not_negative_witness :
  range_ok range_stored ∧
  (∀ rp, rp ∈ reference_prices demo_db → Qle 0 (rp_price rp)) ∧
  getAssetsHandler (F:=binary64) range_stored demo_db (ymd 2025 1 1) "u1" DateAbsent
  = HttpOK (AssetData.mk (ymd 2025 1 1) 330 40) ∧
  (0 ≤ AssetData.CurrentValue (AssetData.mk (ymd 2025 1 1) 330 40) ∨
   AssetData.CurrentValue (AssetData.mk (ymd 2025 1 1) 330 40) = min_int64).
Proof.
  assert (Hprices : ∀ rp, rp ∈ reference_prices demo_db → Qle 0 (rp_price rp)).
  { apply (Forall_forall (λ rp, Qle 0 (rp_price rp))).
    repeat constructor; vm_compute; discriminate. }
  assert (Hrun : getAssetsHandler (F:=binary64) range_stored demo_db (ymd 2025 1 1)
                   "u1" DateAbsent
                 = HttpOK (AssetData.mk (ymd 2025 1 1) 330 40))
    by (vm_compute; reflexivity).
  split_and!; [exact range_stored_ok|exact Hprices|exact Hrun|].
  exact (proj1 (proj2 (valuation_is_not_negative range_stored demo_db (ymd 2025 1 1)
                         "u1" DateAbsent range_stored_ok Hprices)) _ Hrun).
Defined.

(** ** The order of the map in the year-bucketed valuation *)

Lemma yearlyAssets_independent_of_range {F : Float64} (range1 range2 : RangeOracle)
    db currentDate rows :
  range_ok range1 → range_ok range2 →
  yearlyAssets range1 db currentDate rows = yearlyAssets range2 db currentDate rows.
Proof.
  intros H1 H2.
  apply (StronglySorted_unique_strong (λ a b : YearlyAsset.t, ¬ year_less b a)).
  - intros a1 a2 Ha1 Ha2 Hle Hge.
    apply yearlyAssets_elem in Ha1 as (data1 & Hl1 & Ha1); [|done].
    apply yearlyAssets_elem in Ha2 as (data2 & Hl2 & Ha2); [|done].
    assert (YearlyAsset.Year a1 = YearlyAsset.Year a2) as Hyear
      by (unfold year_less in *; lia).
    rewrite Ha1, Ha2, Hyear. rewrite Hyear in Hl1. congruence.
  - apply sortSlice_sorted.
  - apply sortSlice_sorted.
  - by rewrite !yearlyAssets_Permutation.
Qed.

(** X18 — The answer of [GET /{user_id}/assets/byYear] does not depend on
    the order in which [range] visits the [yearlySummary] map, in double
    precision as in any number system: the sums of a year are accumulated
    while the rows are read, in their order, and the entries taken from the
    map are sorted by year, of which no two are equal. *)
Theorem by_year_answer_independent_of_map_order {F : Float64}
    (range1 range2 : RangeOracle) (db : Store) (today : Date) (userID : string) :
  range_ok range1 → range_ok range2 →
  getAssetsByYearHandler range1 db today userID
  = getAssetsByYearHandler range2 db today userID.
Proof.
  intros H1 H2. unfold getAssetsByYearHandler.
  destruct (dbQuery db (selectPositionsByYear db userID today)) as [rows|]; [|done].
  unfold assetsByYearResponse.
  by rewrite (yearlyAssets_independent_of_range range1 range2).
Qed.

Lemma by_year_answer_independent_of_map_order_witness :
  range_ok range_stored ∧ range_ok range_reversed ∧
  getAssetsByYearHandler (F:=binary64) range_stored three_funds_db (ymd 2024 1 10) "u1"
  = getAssetsByYearHandler (F:=binary64) range_reversed three_funds_db (ymd 2024 1 10) "u1".
Proof.
  split_and!; [exact range_stored_ok|exact range_reversed_ok|].
  exact (by_year_answer_independent_of_map_order (F:=binary64) range_stored range_reversed
           three_funds_db (ymd 2024 1 10) "u1" range_stored_ok range_reversed_ok).
Defined.

(** ** The years listed *)

(** X17 — Every year listed by [GET /{user_id}/assets/byYear] is the year of
    a trade of that user, dated at or before today, that has a reference
    price on its trade date: years without a priced purchase of the user
    never appear. *)
Theorem listed_years_are_purchase_years {F : Float64} (range : RangeOracle) (db : Store)
    (today : Date) (userID : string) (body : AssetsByYearResponse.t)
    (a : YearlyAsset.t) :
  range_ok range →
  getAssetsByYearHandler range db today userID = HttpOK body →
  a ∈ AssetsByYearResponse.Assets body →
  ∃ th, th ∈ trade_histories db ∧ th_user_id th = userID ∧
        year (th_trade_date th) = YearlyAsset.Year a ∧
        date_le (th_trade_date th) today ∧ has_price db th.
Proof.
  intros Hrange Hresp Ha. unfold getAssetsByYearHandler in Hresp.
  destruct (dbQuery db (selectPositionsByYear db userID today)) as [rows|] eqn:Hq;
    [|done].
  injection Hresp as <-. simpl in Ha.
  assert (YearlyAsset.Year a ∈ YearlyAsset.Year <$> yearlyAssets range db today rows)
    as Hy by (by apply list_elem_of_fmap_2).
  apply yearlyAssets_years in Hy; [|done].
  assert (∃ r, r ∈ rows ∧ yr_trade_year r = YearlyAsset.Year a) as (r & Hr & Hyr).
  { apply cohort_nonempty in Hy as (r & Hr & Hyr & _). by exists r. }
  eapply dbQuery_elem in Hr; [|exact Hq].
  apply selectPositionsByYear_elem in Hr as (Hk & _ & _).
  apply list_elem_of_fmap in Hk as ([th rp] & Hkey & Hrow). simpl in Hkey.
  unfold selected_rows in Hrow.
  apply list_elem_of_filter in Hrow as [[Huser Hle] Hrow].
  apply joined_elem in Hrow as (Hth & Hrp & Hj). simpl in *.
  exists th. split_and!; [done|done|congruence|done|].
  unfold has_price. apply Exists_exists. by exists rp.
Qed.

Lemma listed_years_are_purchase_years_witness :
  ∃ th, th ∈ trade_histories demo_db ∧ th_user_id th = "u1" ∧
        year (th_trade_date th) = 2023 ∧
        date_le (th_trade_date th) (ymd 2025 1 1) ∧ has_price demo_db th.
Proof.
  refine (listed_years_are_purchase_years (F:=binary64) range_reversed demo_db
            (ymd 2025 1 1) "u1"
            (AssetsByYearResponse.mk (ymd 2025 1 1)
               [YearlyAsset.mk 2024 220 20; YearlyAsset.mk 2023 110 20])
            (YearlyAsset.mk 2023 110 20) range_reversed_ok _ _).
  - vm_compute. reflexivity.
  - simpl. right. left.
Defined.
